(** * yilai_translator: the signed Youdao client and the single-instance start-up

    A shallow embedding of [translator.py] (the [YoudaoTranslator] and
    [YoudaoOCR] classes) and of the start-up path of [main.py]
    ([check_single_instance], the two signal writers, [main] and the
    command-line dispatch), followed by the properties the specification
    states about them.

    Python values are modelled as data: a [str] is a list of Unicode code
    points, [bytes] a list of [byte], an [int] a [Z], a [dict] an association
    list in insertion order.  What the code takes from its environment (the
    uuid generator, the clock, the HTTP library, the file system) is a
    component of an explicit world that every effectful function threads. *)

From Stdlib Require Import List NArith ZArith String Ascii Strings.Byte Bool Lia.
From Stdlib Require Import DecimalPos.
From stdpp Require Import gmap strings.
Import ListNotations.

Local Open Scope N_scope.

(* ================================================================== *)
(** * Python strings, bytes and integers *)
(* ================================================================== *)

Module Py.

(** A [str] is a sequence of code points; [len], indexing and slicing count
    code points, not bytes. *)
Definition codepoint := N.
Definition pystr := list codepoint.

Definition is_surrogate (c : codepoint) : bool :=
  (0xD800 <=? c) && (c <=? 0xDFFF).

(** The code points [str.encode('utf-8')] accepts: every Unicode scalar
    value.  A lone surrogate makes it raise [UnicodeEncodeError]. *)
Definition is_scalar (c : codepoint) : bool :=
  (c <=? 0x10FFFF) && negb (is_surrogate c).

Definition encodable (s : pystr) : bool := forallb is_scalar s.

Definition byte_of_N (n : N) : byte :=
  match Byte.of_N n with Some b => b | None => x00 end.

(** One code point as UTF-8; [None] where Python raises. *)
Definition utf8_encode_cp (c : codepoint) : option (list byte) :=
  if c <? 0x80 then Some [byte_of_N c]
  else if c <? 0x800 then
    Some [byte_of_N (N.lor 0xC0 (N.shiftr c 6));
          byte_of_N (N.lor 0x80 (N.land c 0x3F))]
  else if c <? 0x10000 then
    if is_surrogate c then None
    else Some [byte_of_N (N.lor 0xE0 (N.shiftr c 12));
               byte_of_N (N.lor 0x80 (N.land (N.shiftr c 6) 0x3F));
               byte_of_N (N.lor 0x80 (N.land c 0x3F))]
  else if c <=? 0x10FFFF then
    Some [byte_of_N (N.lor 0xF0 (N.shiftr c 18));
          byte_of_N (N.lor 0x80 (N.land (N.shiftr c 12) 0x3F));
          byte_of_N (N.lor 0x80 (N.land (N.shiftr c 6) 0x3F));
          byte_of_N (N.lor 0x80 (N.land c 0x3F))]
  else None.

(** [s.encode('utf-8')]. *)
Fixpoint utf8_encode (s : pystr) : option (list byte) :=
  match s with
  | [] => Some []
  | c :: r =>
      match utf8_encode_cp c, utf8_encode r with
      | Some bs, Some rest => Some (bs ++ rest)
      | _, _ => None
      end
  end.

(** [b.decode('utf-8')] on well-formed input; it is how the string literals
    of the source, which this file keeps as they are written, become code
    points.  Ill-formed tails are dropped: no literal has one. *)
Fixpoint utf8_decode (bs : list N) : pystr :=
  match bs with
  | [] => []
  | b0 :: r0 =>
      if b0 <? 0x80 then b0 :: utf8_decode r0
      else if b0 <? 0xE0 then
        match r0 with
        | b1 :: r1 =>
            N.lor (N.shiftl (N.land b0 0x1F) 6) (N.land b1 0x3F)
              :: utf8_decode r1
        | _ => []
        end
      else if b0 <? 0xF0 then
        match r0 with
        | b1 :: b2 :: r2 =>
            N.lor (N.shiftl (N.land b0 0x0F) 12)
              (N.lor (N.shiftl (N.land b1 0x3F) 6) (N.land b2 0x3F))
              :: utf8_decode r2
        | _ => []
        end
      else
        match r0 with
        | b1 :: b2 :: b3 :: r3 =>
            N.lor (N.shiftl (N.land b0 0x07) 18)
              (N.lor (N.shiftl (N.land b1 0x3F) 12)
                 (N.lor (N.shiftl (N.land b2 0x3F) 6) (N.land b3 0x3F)))
              :: utf8_decode r3
        | _ => []
        end
  end.

(** A literal of the source: the file is UTF-8, so is the Rocq string. *)
Definition u (lit : string) : pystr :=
  utf8_decode (map Byte.to_N (list_byte_of_string lit)).

(** [len(s)] as a Python [int]. *)
Definition len {A} (s : list A) : Z := Z.of_nat (List.length s).

(** Slicing [s[lo:hi]] with Python's clamping; [None] is an omitted bound
    and a negative bound counts from the end. *)
Definition slice_index (n i : Z) : Z :=
  if (i <? 0)%Z then Z.max 0 (n + i) else Z.min i n.

Definition slice {A} (s : list A) (lo hi : option Z) : list A :=
  let n := len s in
  let a := match lo with None => 0%Z | Some i => slice_index n i end in
  let b := match hi with None => n | Some i => slice_index n i end in
  firstn (Z.to_nat (b - a)) (skipn (Z.to_nat a) s).

(** [str(n)] for an [int]: decimal digits, a leading minus when negative. *)
Fixpoint uint_digits (d : Decimal.uint) : pystr :=
  match d with
  | Decimal.Nil => []
  | Decimal.D0 r => 48 :: uint_digits r
  | Decimal.D1 r => 49 :: uint_digits r
  | Decimal.D2 r => 50 :: uint_digits r
  | Decimal.D3 r => 51 :: uint_digits r
  | Decimal.D4 r => 52 :: uint_digits r
  | Decimal.D5 r => 53 :: uint_digits r
  | Decimal.D6 r => 54 :: uint_digits r
  | Decimal.D7 r => 55 :: uint_digits r
  | Decimal.D8 r => 56 :: uint_digits r
  | Decimal.D9 r => 57 :: uint_digits r
  end.

Definition str_of_int (z : Z) : pystr :=
  match Z.to_int z with
  | Decimal.Pos d => uint_digits d
  | Decimal.Neg d => 45 :: uint_digits d
  end.

(** [sep.join(parts)] on a list of strings. *)
Fixpoint join (sep : pystr) (parts : list pystr) : pystr :=
  match parts with
  | [] => []
  | [p] => p
  | p :: rest => p ++ sep ++ join sep rest
  end.

(** [c.isspace()] for one code point: the characters Unicode classifies as
    whitespace (bidirectional type WS, B or S, or category Zs). *)
Definition isspace (c : codepoint) : bool :=
  ((0x09 <=? c) && (c <=? 0x0D)) || ((0x1C <=? c) && (c <=? 0x20))
  || (c =? 0x85) || (c =? 0xA0) || (c =? 0x1680)
  || ((0x2000 <=? c) && (c <=? 0x200A))
  || (c =? 0x2028) || (c =? 0x2029) || (c =? 0x202F) || (c =? 0x205F)
  || (c =? 0x3000).

Fixpoint lstrip (s : pystr) : pystr :=
  match s with
  | c :: r => if isspace c then lstrip r else s
  | [] => []
  end.

Definition rstrip (s : pystr) : pystr := rev (lstrip (rev s)).

(** [s.strip()]. *)
Definition strip (s : pystr) : pystr := rstrip (lstrip s).

End Py.
Import Py.

(* ================================================================== *)
(** * [hashlib.sha256] (FIPS 180-4) and [hexdigest] *)
(* ================================================================== *)

Module SHA256.

(** 32-bit words are [N]s below [2^32]; every operation that can leave the
    range is masked back into it. *)
Definition mask32 : N := 0xFFFFFFFF.
Definition add32 (x y : N) : N := N.land (x + y) mask32.
Definition not32 (x : N) : N := N.lxor (N.land x mask32) mask32.
Definition rotr (n x : N) : N :=
  N.lor (N.shiftr x n) (N.land (N.shiftl x (32 - n)) mask32).
Definition xor3 (x y z : N) : N := N.lxor (N.lxor x y) z.

Definition Ch (x y z : N) : N := N.lxor (N.land x y) (N.land (not32 x) z).
Definition Maj (x y z : N) : N := xor3 (N.land x y) (N.land x z) (N.land y z).
Definition Sum0 (x : N) : N := xor3 (rotr 2 x) (rotr 13 x) (rotr 22 x).
Definition Sum1 (x : N) : N := xor3 (rotr 6 x) (rotr 11 x) (rotr 25 x).
Definition sig0 (x : N) : N := xor3 (rotr 7 x) (rotr 18 x) (N.shiftr x 3).
Definition sig1 (x : N) : N := xor3 (rotr 17 x) (rotr 19 x) (N.shiftr x 10).

(** The round constants: the first 32 bits of the fractional parts of the
    cube roots of the first 64 primes, in decimal. *)
Definition K : list N :=
  [1116352408; 1899447441; 3049323471; 3921009573;
    961987163; 1508970993; 2453635748; 2870763221;
   3624381080;  310598401;  607225278; 1426881987;
   1925078388; 2162078206; 2614888103; 3248222580;
   3835390401; 4022224774;  264347078;  604807628;
    770255983; 1249150122; 1555081692; 1996064986;
   2554220882; 2821834349; 2952996808; 3210313671;
   3336571891; 3584528711;  113926993;  338241895;
    666307205;  773529912; 1294757372; 1396182291;
   1695183700; 1986661051; 2177026350; 2456956037;
   2730485921; 2820302411; 3259730800; 3345764771;
   3516065817; 3600352804; 4094571909;  275423344;
    430227734;  506948616;  659060556;  883997877;
    958139571; 1322822218; 1537002063; 1747873779;
   1955562222; 2024104815; 2227730452; 2361852424;
   2428436474; 2756734187; 3204031479; 3329325298].

(** The eight working registers, also the running hash value. *)
Definition regs : Type := (N * N * N * N * N * N * N * N)%type.

(** The initial hash value: the first 32 bits of the fractional parts of
    the square roots of the first 8 primes. *)
Definition initial : regs :=
  (1779033703, 3144134277, 1013904242, 2773480762,
   1359893119, 2600822924, 528734635, 1541459225).

(** The message schedule, built newest word first. *)
Fixpoint extend (n : nat) (newest_first : list N) : list N :=
  match n with
  | O => newest_first
  | S k =>
      let w := add32 (add32 (add32 (sig1 (nth 1 newest_first 0))
                                   (nth 6 newest_first 0))
                            (sig0 (nth 14 newest_first 0)))
                     (nth 15 newest_first 0) in
      extend k (w :: newest_first)
  end.

Definition schedule (block : list N) : list N := rev (extend 48 (rev block)).

Definition round (s : regs) (kw : N * N) : regs :=
  let '(a, b, c, d, e, f, g, h) := s in
  let t1 := add32 (add32 (add32 (add32 h (Sum1 e)) (Ch e f g)) (fst kw)) (snd kw) in
  let t2 := add32 (Sum0 a) (Maj a b c) in
  (add32 t1 t2, a, b, c, add32 d t1, e, f, g).

Definition compress (hv : regs) (block : list N) : regs :=
  let '(a, b, c, d, e, f, g, h) := fold_left round (combine K (schedule block)) hv in
  let '(a0, b0, c0, d0, e0, f0, g0, h0) := hv in
  (add32 a0 a, add32 b0 b, add32 c0 c, add32 d0 d,
   add32 e0 e, add32 f0 f, add32 g0 g, add32 h0 h).

(** Big-endian bytes of a word and back. *)
Definition be32 (w : N) : list N :=
  [N.land (N.shiftr w 24) 0xFF; N.land (N.shiftr w 16) 0xFF;
   N.land (N.shiftr w 8) 0xFF; N.land w 0xFF].

Fixpoint words (bs : list N) : list N :=
  match bs with
  | b0 :: b1 :: b2 :: b3 :: r =>
      N.lor (N.shiftl b0 24) (N.lor (N.shiftl b1 16) (N.lor (N.shiftl b2 8) b3))
        :: words r
  | _ => []
  end.

(** Padding: a one bit, zeros up to 56 modulo 64, the bit length on 64
    bits. *)
Definition pad (m : list N) : list N :=
  let n := N.of_nat (List.length m) in
  let bits := N.land (8 * n) 0xFFFFFFFFFFFFFFFF in
  m ++ [0x80] ++ repeat 0 (N.to_nat ((119 - n mod 64) mod 64))
    ++ be32 (N.shiftr bits 32) ++ be32 (N.land bits mask32).

Fixpoint blocks (fuel : nat) (ws : list N) (hv : regs) : regs :=
  match fuel, ws with
  | S k, _ :: _ => blocks k (skipn 16 ws) (compress hv (firstn 16 ws))
  | _, _ => hv
  end.

(** [hashlib.sha256(m).digest()]: 32 bytes. *)
Definition digest (m : list byte) : list byte :=
  let ws := words (pad (map Byte.to_N m)) in
  let '(a, b, c, d, e, f, g, h) := blocks (List.length ws) ws initial in
  map byte_of_N (be32 a ++ be32 b ++ be32 c ++ be32 d
                 ++ be32 e ++ be32 f ++ be32 g ++ be32 h).

Definition hex_digit (n : N) : codepoint :=
  if n <? 10 then 48 + n else 87 + n.

Definition hex_byte (b : byte) : pystr :=
  [hex_digit (N.shiftr (Byte.to_N b) 4); hex_digit (N.land (Byte.to_N b) 0xF)].

(** [hashlib.sha256(m).hexdigest()]: lowercase hexadecimal. *)
Definition hexdigest (m : list byte) : pystr := flat_map hex_byte (digest m).

End SHA256.

(* ================================================================== *)
(** * [base64.b64encode] *)
(* ================================================================== *)

Module Base64.

Definition alphabet : list N :=
  map Byte.to_N (list_byte_of_string
    "ABCDEFGHIJKLMNOPQRSTUVWXYZabcdefghijklmnopqrstuvwxyz0123456789+/").

Definition pad_char : N := 61.

Definition sextet (i : N) : byte := byte_of_N (nth (N.to_nat i) alphabet pad_char).

Fixpoint b64encode_N (bs : list N) : list byte :=
  match bs with
  | [] => []
  | [b0] =>
      [sextet (N.shiftr b0 2);
       sextet (N.shiftl (N.land b0 3) 4);
       byte_of_N pad_char; byte_of_N pad_char]
  | [b0; b1] =>
      [sextet (N.shiftr b0 2);
       sextet (N.lor (N.shiftl (N.land b0 3) 4) (N.shiftr b1 4));
       sextet (N.shiftl (N.land b1 0xF) 2);
       byte_of_N pad_char]
  | b0 :: b1 :: b2 :: r =>
      sextet (N.shiftr b0 2)
      :: sextet (N.lor (N.shiftl (N.land b0 3) 4) (N.shiftr b1 4))
      :: sextet (N.lor (N.shiftl (N.land b1 0xF) 2) (N.shiftr b2 6))
      :: sextet (N.land b2 0x3F)
      :: b64encode_N r
  end.

(** [base64.b64encode(data)], bytes to bytes. *)
Definition b64encode (data : list byte) : list byte :=
  b64encode_N (map Byte.to_N data).

(** [b.decode('utf-8')] of a byte string. *)
Definition decode_utf8 (b : list byte) : pystr := utf8_decode (map Byte.to_N b).

End Base64.

Definition bytes_of_ascii (s : string) : list byte := list_byte_of_string s.


(* ================================================================== *)
(** * Python values, exceptions and the effect monad *)
(* ================================================================== *)

Module Value.

(** A [float] is kept by what the code can observe of it: its [repr] and
    whether it is non-zero (its truth value). *)
Record pyfloat := PyFloatRepr { float_repr : pystr; float_nonzero : bool }.

(** The values [json.loads] builds, which are also the values of the result
    dictionaries. *)
#[local] Unset Elimination Schemes.
Inductive pyval :=
| PyNone
| PyBool (b : bool)
| PyInt (z : Z)
| PyFloat (x : pyfloat)
| PyStr (s : pystr)
| PyList (items : list pyval)
| PyDict (entries : list (pystr * pyval)).
#[local] Set Elimination Schemes.

Fixpoint str_eqb (a b : pystr) : bool :=
  match a, b with
  | [], [] => true
  | x :: a', y :: b' => (x =? y) && str_eqb a' b'
  | _, _ => false
  end.

(** [d[k]] in an insertion-ordered dictionary with string keys. *)
Fixpoint lookup (k : pystr) (d : list (pystr * pyval)) : option pyval :=
  match d with
  | [] => None
  | (k', v) :: rest => if str_eqb k k' then Some v else lookup k rest
  end.

(** [bool(v)]. *)
Definition truthy (v : pyval) : bool :=
  match v with
  | PyNone => false
  | PyBool b => b
  | PyInt z => negb (z =? 0)%Z
  | PyFloat x => float_nonzero x
  | PyStr s => negb (Nat.eqb (List.length s) 0)
  | PyList l => negb (Nat.eqb (List.length l) 0)
  | PyDict d => negb (Nat.eqb (List.length d) 0)
  end.

(** [v == "lit"] against a string. *)
Definition eq_str (v : pyval) (lit : pystr) : bool :=
  match v with
  | PyStr s => str_eqb s lit
  | _ => false
  end.

(** The hashable values: what may key a dictionary lookup, and what an
    f-string field of the client ever formats. *)
Inductive scalar :=
| SNone
| SBool (b : bool)
| SInt (z : Z)
| SFloat (x : pyfloat)
| SStr (s : pystr).

(** [format(v, '')], the text an f-string field [{v}] produces. *)
Definition format_scalar (v : scalar) : pystr :=
  match v with
  | SNone => u "None"
  | SBool true => u "True"
  | SBool false => u "False"
  | SInt z => str_of_int z
  | SFloat x => float_repr x
  | SStr s => s
  end.

End Value.
Import Value.

Module Exn.

(** The exception classes the two files can meet. *)
Inductive exc_class :=
| BaseException | Exception | SystemExit
| OSError | BlockingIOError | PermissionError
| ValueError | UnicodeEncodeError | JSONDecodeError
| AttributeError | TypeError
| RequestException | ConnectionError | Timeout | ConnectTimeout | ReadTimeout
| InvalidJSONError | RequestsJSONDecodeError.

(** Direct base classes, as the class statements of Python, [json] and
    [requests] give them.  [IOError] is [OSError].  Since requests 2.27
    [Response.json()] raises [requests.exceptions.JSONDecodeError], declared
    [class JSONDecodeError(InvalidJSONError, json.JSONDecodeError)]. *)
Definition bases (c : exc_class) : list exc_class :=
  match c with
  | BaseException => []
  | Exception => [BaseException]
  | SystemExit => [BaseException]
  | OSError => [Exception]
  | BlockingIOError => [OSError]
  | PermissionError => [OSError]
  | ValueError => [Exception]
  | UnicodeEncodeError => [ValueError]
  | JSONDecodeError => [ValueError]
  | AttributeError => [Exception]
  | TypeError => [Exception]
  | RequestException => [OSError]
  | ConnectionError => [RequestException]
  | Timeout => [RequestException]
  | ConnectTimeout => [ConnectionError; Timeout]
  | ReadTimeout => [Timeout]
  | InvalidJSONError => [RequestException]
  | RequestsJSONDecodeError => [InvalidJSONError; JSONDecodeError]
  end.

Definition class_eqb (c d : exc_class) : bool :=
  match c, d with
  | BaseException, BaseException | Exception, Exception
  | SystemExit, SystemExit | OSError, OSError
  | BlockingIOError, BlockingIOError | PermissionError, PermissionError
  | ValueError, ValueError | UnicodeEncodeError, UnicodeEncodeError
  | JSONDecodeError, JSONDecodeError | AttributeError, AttributeError
  | TypeError, TypeError | RequestException, RequestException
  | ConnectionError, ConnectionError | Timeout, Timeout
  | ConnectTimeout, ConnectTimeout | ReadTimeout, ReadTimeout
  | InvalidJSONError, InvalidJSONError
  | RequestsJSONDecodeError, RequestsJSONDecodeError => true
  | _, _ => false
  end.

(** [issubclass(c, d)]; the hierarchy is five levels deep. *)
Fixpoint issubclass_upto (depth : nat) (c d : exc_class) : bool :=
  class_eqb c d
  || match depth with
     | O => false
     | S k => existsb (fun b => issubclass_upto k b d) (bases c)
     end.

Definition issubclass : exc_class -> exc_class -> bool := issubclass_upto 6.

(** A raised exception: its class, [str(e)], and for [SystemExit] the exit
    status. *)
Record exn := mkExn { exn_class : exc_class; exn_str : pystr; exn_code : Z }.

Definition error (c : exc_class) (msg : pystr) : exn := mkExn c msg 1.

Definition isinstance (e : exn) (c : exc_class) : bool :=
  issubclass (exn_class e) c.

(** How a call ends: it returns, it raises, or it never comes back (a
    blocking system call that waits for ever). *)
Inductive outcome (A : Type) :=
| Return (a : A)
| Raise (e : exn)
| Hang.
Arguments Return {A} a.
Arguments Raise {A} e.
Arguments Hang {A}.

End Exn.
Import Exn.

(** The monad of the effectful code: a world [W] threaded through, and an
    [outcome]. *)
Module Eff.
Section Eff.
Context {W : Type}.

Definition M (A : Type) : Type := W -> outcome A * W.

Definition ret {A} (a : A) : M A := fun w => (Return a, w).
Definition raise {A} (e : exn) : M A := fun w => (Raise e, w).
Definition lift {A} (o : outcome A) : M A := fun w => (o, w).

Definition bind {A B} (m : M A) (k : A -> M B) : M B :=
  fun w =>
    match m w with
    | (Return a, w') => k a w'
    | (Raise e, w') => (Raise e, w')
    | (Hang, w') => (Hang, w')
    end.

(** The first [except] clause whose class the exception is an instance of. *)
Fixpoint find_handler {A} (e : exn) (clauses : list (exc_class * (exn -> M A)))
  : option (exn -> M A) :=
  match clauses with
  | [] => None
  | (c, h) :: rest => if isinstance e c then Some h else find_handler e rest
  end.

(** [try: body / except C1 as e: h1 / except C2 as e: h2 ...]. *)
Definition try_except {A} (body : M A) (clauses : list (exc_class * (exn -> M A)))
  : M A :=
  fun w =>
    match body w with
    | (Raise e, w') =>
        match find_handler e clauses with
        | Some h => h e w'
        | None => (Raise e, w')
        end
    | r => r
    end.

(** [try: body / finally: cleanup]. *)
Definition try_finally {A} (body : M A) (cleanup : M unit) : M A :=
  fun w =>
    match body w with
    | (Hang, w') => (Hang, w')
    | (r, w') =>
        match cleanup w' with
        | (Return _, w'') => (r, w'')
        | (Raise e, w'') => (Raise e, w'')
        | (Hang, w'') => (Hang, w'')
        end
    end.

(** A [for] loop over a list that threads an accumulator. *)
Fixpoint for_each {A B} (xs : list A) (body : A -> B -> M B) (acc : B) : M B :=
  match xs with
  | [] => ret acc
  | x :: rest => bind (body x acc) (for_each rest body)
  end.

End Eff.
End Eff.
Import Eff.

Declare Scope eff_scope.
Delimit Scope eff_scope with eff.
Open Scope eff_scope.

Notation "x <- m ;; k" := (bind m (fun x => k))
  (at level 100, m at next level, right associativity) : eff_scope.
Notation "m ;;; k" := (bind m (fun _ => k))
  (at level 100, right associativity) : eff_scope.

(* ================================================================== *)
(** * The operations on values the client uses *)
(* ================================================================== *)

Module Ops.

Definition type_name (v : pyval) : pystr :=
  match v with
  | PyNone => u "NoneType"
  | PyBool _ => u "bool"
  | PyInt _ => u "int"
  | PyFloat _ => u "float"
  | PyStr _ => u "str"
  | PyList _ => u "list"
  | PyDict _ => u "dict"
  end.

(** [v.get(key, default)]: only a [dict] has the method. *)
Definition get (v : pyval) (key : pystr) (default : pyval) : outcome pyval :=
  match v with
  | PyDict d =>
      Return (match lookup key d with Some x => x | None => default end)
  | _ =>
      Raise (error AttributeError
               (u "'" ++ type_name v ++ u "' object has no attribute 'get'"))
  end.

(** [iter(v)] run to the end: the items of a list, the characters of a
    string, the keys of a dictionary. *)
Definition iterate (v : pyval) : outcome (list pyval) :=
  match v with
  | PyList l => Return l
  | PyStr s => Return (map (fun c => PyStr [c]) s)
  | PyDict d => Return (map (fun kv => PyStr (fst kv)) d)
  | _ =>
      Raise (error TypeError
               (u "'" ++ type_name v ++ u "' object is not iterable"))
  end.

Fixpoint all_str (items : list pyval) : option (list pystr) :=
  match items with
  | [] => Some []
  | PyStr s :: rest =>
      match all_str rest with
      | Some parts => Some (s :: parts)
      | None => None
      end
  | _ :: _ => None
  end.

(** [sep.join(v)]: [v] must be iterable and yield only strings. *)
Definition str_join (sep : pystr) (v : pyval) : outcome pystr :=
  match iterate v with
  | Return items =>
      match all_str items with
      | Some parts => Return (join sep parts)
      | None =>
          Raise (error TypeError (u "sequence item: expected str instance"))
      end
  | Raise _ => Raise (error TypeError (u "can only join an iterable"))
  | Hang => Hang
  end.

(** Hashing a dictionary key: lists and dictionaries are unhashable. *)
Definition hash_key (v : pyval) : outcome scalar :=
  match v with
  | PyNone => Return SNone
  | PyBool b => Return (SBool b)
  | PyInt z => Return (SInt z)
  | PyFloat x => Return (SFloat x)
  | PyStr s => Return (SStr s)
  | PyList _ | PyDict _ =>
      Raise (error TypeError (u "unhashable type: '" ++ type_name v ++ u "'"))
  end.

(** [table.get(key, default)] on a literal table whose keys are strings: a
    key of another type equals none of them. *)
Fixpoint assoc (k : pystr) (table : list (pystr * pystr)) : option pystr :=
  match table with
  | [] => None
  | (k', v) :: rest => if str_eqb k k' then Some v else assoc k rest
  end.

Definition table_get (table : list (pystr * pystr)) (key : scalar)
    (default : pystr) : pystr :=
  match key with
  | SStr s => match assoc s table with Some m => m | None => default end
  | _ => default
  end.

Definition newline : pystr := [10].

End Ops.
Import Ops.

(* ================================================================== *)
(** * The world of the client: [uuid], [time] and [requests] *)
(* ================================================================== *)

Module Net.

(** One [requests.post(url, data=..., timeout=...)]. *)
Record request := mkRequest {
  req_url : pystr;
  req_data : list (pystr * pystr);
  req_timeout : Z
}.

(** A [requests.Response], by what [response.json()] does: it returns the
    parsed body or raises. *)
Record response := mkResponse { resp_json : outcome pyval }.

Record world := mkWorld {
  uuid4 : nat -> pystr;                 (* the n-th [str(uuid.uuid4())] *)
  uuid_calls : nat;
  clock : nat -> Z;                     (* the n-th [int(time.time())] *)
  clock_calls : nat;
  http : request -> outcome response;   (* the remote end, seen by [post] *)
  posted : list request                 (* requests sent, oldest first *)
}.

Definition uuid_str : M (W:=world) pystr :=
  fun w =>
    (Return (uuid4 w (uuid_calls w)),
     mkWorld (uuid4 w) (S (uuid_calls w)) (clock w) (clock_calls w)
             (http w) (posted w)).

Definition time_int : M (W:=world) Z :=
  fun w =>
    (Return (clock w (clock_calls w)),
     mkWorld (uuid4 w) (uuid_calls w) (clock w) (S (clock_calls w))
             (http w) (posted w)).

Definition requests_post (url : pystr) (data : list (pystr * pystr))
    (timeout : Z) : M (W:=world) response :=
  fun w =>
    let r := mkRequest url data timeout in
    (http w r,
     mkWorld (uuid4 w) (uuid_calls w) (clock w) (clock_calls w)
             (http w) (posted w ++ [r])).

Definition response_json (r : response) : M (W:=world) pyval :=
  lift (resp_json r).

(** [requests.exceptions.JSONDecodeError], what [Response.json()] raises on
    a body that is not JSON (requests 2.27 and later). *)
Definition invalid_json (msg : pystr) : exn := error RequestsJSONDecodeError msg.

(** [json.JSONDecodeError], what [Response.json()] let through before
    requests 2.27. *)
Definition invalid_json_legacy (msg : pystr) : exn := error JSONDecodeError msg.

End Net.
Import Net.

(* ================================================================== *)
(** * [translator.py] *)
(* ================================================================== *)

Module YoudaoTranslator.

Record t := mk { app_key : pystr; app_secret : pystr }.

Definition API_URL : pystr := u "https://openapi.youdao.com/api".

Definition _generate_sign (self : t) (query salt curtime : pystr)
  : outcome pystr :=
  let input_str :=
    if (len query <=? 20)%Z then query
    else slice query None (Some 10%Z) ++ str_of_int (len query)
         ++ slice query (Some (-10)%Z) None in
  let sign_str :=
    app_key self ++ input_str ++ salt ++ curtime ++ app_secret self in
  match utf8_encode sign_str with
  | Some data => Return (SHA256.hexdigest data)
  | None =>
      Raise (error UnicodeEncodeError
               (u "'utf-8' codec can't encode: surrogates not allowed"))
  end.

Definition error_messages : list (pystr * pystr) :=
  [(u "101", u "缺少必填参数");
   (u "102", u "不支持的语言类型");
   (u "103", u "翻译文本过长");
   (u "108", u "应用ID无效");
   (u "110", u "无相关服务的有效应用");
   (u "111", u "开发者账号无效");
   (u "202", u "签名检验失败，请检查appKey和密钥");
   (u "206", u "时间戳无效");
   (u "207", u "重放请求");
   (u "401", u "账户已欠费");
   (u "411", u "访问频率受限")].

(** The argument has been hashed by the time the table is searched, so it
    is a [scalar] here; [translate] hashes it just before the call. *)
Definition _get_error_message (self : t) (error_code : scalar) : pystr :=
  table_get error_messages error_code (u "未知错误").

Definition translate (self : t) (text from_lang to_lang : pystr)
  : M (W:=world) pyval :=
  if negb (truthy (PyStr (strip text))) then
    ret (PyDict [(u "success", PyBool false);
                 (u "translation", PyStr (u ""));
                 (u "error", PyStr (u "翻译文本不能为空"));
                 (u "query", PyStr text)])
  else
    salt <- uuid_str ;;
    now <- time_int ;;
    let curtime := str_of_int now in
    sign <- lift (_generate_sign self text salt curtime) ;;
    let params :=
      [(u "q", text);
       (u "from", from_lang);
       (u "to", to_lang);
       (u "appKey", app_key self);
       (u "salt", salt);
       (u "sign", sign);
       (u "signType", u "v3");
       (u "curtime", curtime)] in
    try_except
      (response <- requests_post API_URL params 10 ;;
       result <- response_json response ;;
       error_code <- lift (get result (u "errorCode") (PyStr (u ""))) ;;
       if eq_str error_code (u "0") then
         translation_list <- lift (get result (u "translation") (PyList [])) ;;
         translation <-
           (if truthy translation_list
            then lift (str_join newline translation_list)
            else ret (u "")) ;;
         query <- lift (get result (u "query") (PyStr text)) ;;
         speakUrl <- lift (get result (u "speakUrl") (PyStr (u ""))) ;;
         tSpeakUrl <- lift (get result (u "tSpeakUrl") (PyStr (u ""))) ;;
         ret (PyDict [(u "success", PyBool true);
                      (u "translation", PyStr translation);
                      (u "error", PyStr (u ""));
                      (u "query", query);
                      (u "speakUrl", speakUrl);
                      (u "tSpeakUrl", tSpeakUrl)])
       else
         key <- lift (hash_key error_code) ;;
         let error_msg := _get_error_message self key in
         ret (PyDict [(u "success", PyBool false);
                      (u "translation", PyStr (u ""));
                      (u "error",
                       PyStr (u "错误码 " ++ format_scalar key ++ u ": "
                              ++ error_msg));
                      (u "query", PyStr text)]))
      [(Timeout, fun _ =>
          ret (PyDict [(u "success", PyBool false);
                       (u "translation", PyStr (u ""));
                       (u "error", PyStr (u "请求超时，请检查网络连接"));
                       (u "query", PyStr text)]));
       (RequestException, fun e =>
          ret (PyDict [(u "success", PyBool false);
                       (u "translation", PyStr (u ""));
                       (u "error", PyStr (u "网络请求失败: " ++ exn_str e));
                       (u "query", PyStr text)]));
       (JSONDecodeError, fun _ =>
          ret (PyDict [(u "success", PyBool false);
                       (u "translation", PyStr (u ""));
                       (u "error", PyStr (u "服务器返回数据格式错误"));
                       (u "query", PyStr text)]))].

End YoudaoTranslator.

Module YoudaoOCR.

Record t := mk { app_key : pystr; app_secret : pystr }.

Definition OCR_API_URL : pystr := u "https://openapi.youdao.com/ocrapi".

Definition _generate_sign (self : t) (img_base64 salt curtime : pystr)
  : outcome pystr :=
  let input_str :=
    if (len img_base64 <=? 20)%Z then img_base64
    else slice img_base64 None (Some 10%Z) ++ str_of_int (len img_base64)
         ++ slice img_base64 (Some (-10)%Z) None in
  let sign_str :=
    app_key self ++ input_str ++ salt ++ curtime ++ app_secret self in
  match utf8_encode sign_str with
  | Some data => Return (SHA256.hexdigest data)
  | None =>
      Raise (error UnicodeEncodeError
               (u "'utf-8' codec can't encode: surrogates not allowed"))
  end.

Definition error_messages : list (pystr * pystr) :=
  [(u "101", u "缺少必填参数");
   (u "102", u "不支持的语言类型");
   (u "108", u "应用ID无效");
   (u "110", u "无相关服务的有效应用");
   (u "111", u "开发者账号无效");
   (u "202", u "签名检验失败，请检查appKey和密钥");
   (u "206", u "时间戳无效");
   (u "207", u "重放请求");
   (u "401", u "账户已欠费");
   (u "411", u "访问频率受限");
   (u "1001", u "无效的OCR类型");
   (u "1002", u "不支持的OCR图片类型");
   (u "1003", u "不支持的OCR语言类型");
   (u "1004", u "识别图片过大");
   (u "1006", u "图片不能为空");
   (u "1201", u "图片base64解密失败");
   (u "1301", u "OCR识别失败")].

Definition _get_error_message (self : t) (error_code : scalar) : pystr :=
  table_get error_messages error_code (u "未知错误").

(** The body of the inner loop: one line of one region. *)
Definition visit_line (line : pyval) (text_lines : list pyval)
  : M (W:=world) (list pyval) :=
  line_text <- lift (get line (u "text") (PyStr (u ""))) ;;
  if truthy line_text then ret (text_lines ++ [line_text]) else ret text_lines.

(** The body of the outer loop: one region. *)
Definition visit_region (region : pyval) (text_lines : list pyval)
  : M (W:=world) (list pyval) :=
  lines_value <- lift (get region (u "lines") (PyList [])) ;;
  lines <- lift (iterate lines_value) ;;
  for_each lines visit_line text_lines.

Definition recognize (self : t) (image_data : list byte) (lang : pystr)
  : M (W:=world) pyval :=
  let img_base64 := Base64.decode_utf8 (Base64.b64encode image_data) in
  salt <- uuid_str ;;
  now <- time_int ;;
  let curtime := str_of_int now in
  sign <- lift (_generate_sign self img_base64 salt curtime) ;;
  let params :=
    [(u "img", img_base64);
     (u "langType", lang);
     (u "detectType", u "10012");
     (u "imageType", u "1");
     (u "appKey", app_key self);
     (u "salt", salt);
     (u "sign", sign);
     (u "signType", u "v3");
     (u "curtime", curtime);
     (u "docType", u "json")] in
  try_except
    (response <- requests_post OCR_API_URL params 30 ;;
     result <- response_json response ;;
     error_code <- lift (get result (u "errorCode") (PyStr (u ""))) ;;
     if eq_str error_code (u "0") then
       result_field <- lift (get result (u "Result") (PyDict [])) ;;
       regions <- lift (get result_field (u "regions") (PyList [])) ;;
       region_items <- lift (iterate regions) ;;
       text_lines <- for_each region_items visit_region [] ;;
       full_text <- lift (str_join newline (PyList text_lines)) ;;
       ret (PyDict [(u "success", PyBool true);
                    (u "text", PyStr full_text);
                    (u "error", PyStr (u ""));
                    (u "regions", regions)])
     else
       key <- lift (hash_key error_code) ;;
       let error_msg := _get_error_message self key in
       ret (PyDict [(u "success", PyBool false);
                    (u "text", PyStr (u ""));
                    (u "error",
                     PyStr (u "错误码 " ++ format_scalar key ++ u ": "
                            ++ error_msg));
                    (u "regions", PyList [])]))
    [(Timeout, fun _ =>
        ret (PyDict [(u "success", PyBool false);
                     (u "text", PyStr (u ""));
                     (u "error", PyStr (u "请求超时，请检查网络连接"));
                     (u "regions", PyList [])]));
     (RequestException, fun e =>
        ret (PyDict [(u "success", PyBool false);
                     (u "text", PyStr (u ""));
                     (u "error", PyStr (u "网络请求失败: " ++ exn_str e));
                     (u "regions", PyList [])]));
     (JSONDecodeError, fun _ =>
        ret (PyDict [(u "success", PyBool false);
                     (u "text", PyStr (u ""));
                     (u "error", PyStr (u "服务器返回数据格式错误"));
                     (u "regions", PyList [])]))].

End YoudaoOCR.

(* ================================================================== *)
(** * [main.py]: the single-instance start-up *)
(* ================================================================== *)

Module Main.

(** The part of the operating system the start-up touches. *)
Record world := mkWorld {
  files : gmap string pystr;        (* the files that exist, with their text *)
  denied : gset string;             (* paths [open(path, 'w')] is refused on *)
  locked_elsewhere : gset string;   (* files another process holds a lock on *)
  locks : gset string;              (* locks this process holds *)
  stdout : list pystr;              (* lines printed *)
  apps : nat                        (* [TranslatorApp] instances created *)
}.

Definition LOCK_FILE : string := "/tmp/yilai_translator.lock".
Definition SHOW_SIGNAL_FILE : string := "/tmp/yilai_translator_show.signal".
Definition SELECTION_TRANSLATE_SIGNAL_FILE : string :=
  "/tmp/yilai_translator_selection.signal".

(** [fcntl]'s operation bits. *)
Definition LOCK_SH : Z := 1.
Definition LOCK_EX : Z := 2.
Definition LOCK_NB : Z := 4.
Definition LOCK_UN : Z := 8.

Definition set_files (f : gmap string pystr) (w : world) : world :=
  mkWorld f (denied w) (locked_elsewhere w) (locks w) (stdout w) (apps w).
Definition set_locks (l : gset string) (w : world) : world :=
  mkWorld (files w) (denied w) (locked_elsewhere w) l (stdout w) (apps w).

(** [open(path, 'w')]: creates or truncates the file; the handle is the
    path. *)
Definition open_w (path : string) : M (W:=world) string :=
  fun w =>
    if decide (path ∈ denied w)
    then (Raise (error PermissionError (u "[Errno 13] Permission denied")), w)
    else (Return path, set_files (<[path := []]> (files w)) w).

(** [f.write(text)]. *)
Definition write (f : string) (text : pystr) : M (W:=world) unit :=
  fun w =>
    (Return tt,
     set_files (<[f := match files w !! f with
                       | Some old => old ++ text
                       | None => text
                       end]> (files w)) w).

(** [f.close()]. *)
Definition close (f : string) : M (W:=world) unit := ret tt.

(** [fcntl.flock(f, operation)]: unlock; or take the lock, which on a file
    locked by another process fails at once with [LOCK_NB] and waits
    without it. *)
Definition flock (f : string) (operation : Z) : M (W:=world) unit :=
  fun w =>
    if negb (Z.land operation LOCK_UN =? 0)%Z
    then (Return tt, set_locks (locks w ∖ {[f]}) w)
    else if decide (f ∈ locked_elsewhere w)
    then if negb (Z.land operation LOCK_NB =? 0)%Z
         then (Raise (error BlockingIOError
                        (u "[Errno 11] Resource temporarily unavailable")), w)
         else (Hang, w)
    else (Return tt, set_locks (locks w ∪ {[f]}) w).

(** [os.remove(path)]. *)
Definition os_remove (path : string) : M (W:=world) unit :=
  fun w =>
    match files w !! path with
    | Some _ => (Return tt, set_files (delete path (files w)) w)
    | None => (Raise (error OSError (u "[Errno 2] No such file or directory")), w)
    end.

Definition print (line : pystr) : M (W:=world) unit :=
  fun w =>
    (Return tt,
     mkWorld (files w) (denied w) (locked_elsewhere w) (locks w)
             (stdout w ++ [line]) (apps w)).

(** [sys.exit(code)]. *)
Definition sys_exit {A} (code : Z) : M (W:=world) A :=
  raise (mkExn SystemExit (str_of_int code) code).

(** [TranslatorApp()]: the window itself is outside the model; creating one
    is counted. *)
Definition TranslatorApp : M (W:=world) unit :=
  fun w =>
    (Return tt,
     mkWorld (files w) (denied w) (locked_elsewhere w) (locks w)
             (stdout w) (S (apps w))).

Definition check_single_instance : M (W:=world) (option string) :=
  try_except
    (lock_file <- open_w LOCK_FILE ;;
     flock lock_file (Z.lor LOCK_EX LOCK_NB) ;;;
     ret (Some lock_file))
    [(OSError, fun _ => ret None); (OSError, fun _ => ret None)].

(** [with open(path, 'w') as f: f.write(text)]. *)
Definition write_file (path : string) (text : pystr) : M (W:=world) unit :=
  f <- open_w path ;;
  try_finally (write f text) (close f).

Definition send_show_signal : M (W:=world) unit :=
  try_except (write_file SHOW_SIGNAL_FILE (u "show"))
    [(BaseException, fun _ => ret tt)].

Definition send_selection_translate_signal : M (W:=world) unit :=
  try_except (write_file SELECTION_TRANSLATE_SIGNAL_FILE (u "translate"))
    [(BaseException, fun _ => ret tt)].

(** The [finally] block of [main]: unlock, close, remove the lock file
    (a failure to remove it is ignored). *)
Definition release (lock_file : string) : M (W:=world) unit :=
  flock lock_file LOCK_UN ;;;
  close lock_file ;;;
  try_except (os_remove LOCK_FILE) [(BaseException, fun _ => ret tt)].

Section Program.

(** The collaborators the start-up calls and the model leaves open: the
    event loop of the window and the autostart helpers. *)
Variable app_run : M (W:=world) unit.
Variable setup_autostart : bool -> M (W:=world) bool.
Variable is_autostart_enabled : M (W:=world) bool.

Definition main : M (W:=world) unit :=
  lock_file <- check_single_instance ;;
  match lock_file with
  | None =>
      send_show_signal ;;;
      print (u "程序已在运行中，已发送显示窗口信号") ;;;
      sys_exit 0
  | Some lf =>
      TranslatorApp ;;;
      try_finally app_run (release lf)
  end.

(** The [if __name__ == "__main__":] block; [argv] is [sys.argv]. *)
Definition script (argv : list pystr) : M (W:=world) unit :=
  (if (len argv >? 1)%Z then
     let flag := nth 1 argv [] in
     if str_eqb flag (u "--show") then
       send_show_signal ;;;
       print (u "已发送显示窗口信号") ;;;
       sys_exit 0
     else if str_eqb flag (u "--selection-translate") then
       send_selection_translate_signal ;;;
       print (u "已发送划词翻译信号") ;;;
       sys_exit 0
     else if str_eqb flag (u "--enable-autostart") then
       setup_autostart true ;;;
       print (u "已启用开机自启动") ;;;
       sys_exit 0
     else if str_eqb flag (u "--disable-autostart") then
       setup_autostart false ;;;
       print (u "已关闭开机自启动") ;;;
       sys_exit 0
     else if str_eqb flag (u "--check-autostart") then
       enabled <- is_autostart_enabled ;;
       print (u "开机自启动: "
              ++ (if enabled then u "已启用" else u "已关闭")) ;;;
       sys_exit 0
     else ret tt
   else ret tt) ;;;
  main.

End Program.

(** The exit status of the process, when it ends. *)
Definition exit_status {A} (o : outcome A) : option Z :=
  match o with
  | Return _ => Some 0%Z
  | Raise e => Some (if class_eqb (exn_class e) SystemExit then exn_code e else 1%Z)
  | Hang => None
  end.

(** The world once the lock is taken and the application object built:
    the lock file exists and is empty, this process holds the lock, one
    more application has been created. *)
Definition primary_world (w : world) : world :=
  mkWorld (<[LOCK_FILE := []]> (files w)) (denied w) (locked_elsewhere w)
          (locks w ∪ {[LOCK_FILE]}) (stdout w) (S (apps w)).

End Main.

(* ================================================================== *)
(** * The signature as the specification words it *)
(* ================================================================== *)

Module Spec.

Definition first_chars (n : nat) (s : pystr) : pystr := firstn n s.
Definition last_chars (n : nat) (s : pystr) : pystr := rev (firstn n (rev s)).

(** "If the payload's length is at most 20 characters, the digest-input is
    the payload verbatim; otherwise it is the first 10 characters, followed
    by the decimal string of the payload's length, followed by the last 10
    characters." *)
Definition digest_input (payload : pystr) : pystr :=
  if (List.length payload <=? 20)%nat then payload
  else first_chars 10 payload
       ++ str_of_int (Z.of_nat (List.length payload))
       ++ last_chars 10 payload.

(** The bytes that are hashed: "the UTF-8 bytes of app_id + digest_input +
    salt + timestamp + secret concatenated with no separators". *)
Definition signed_bytes (app_id payload salt timestamp secret : pystr)
  : option (list byte) :=
  utf8_encode (app_id ++ digest_input payload ++ salt ++ timestamp ++ secret).

Definition lower_hex (c : codepoint) : bool :=
  ((48 <=? c) && (c <=? 57)) || ((97 <=? c) && (c <=? 102)).

(** The OCR result as the specification reads it: a list of regions, each
    an ordered list of lines, each line carrying its recognized text.  A
    line without a text field carries the empty text, a region without a
    lines field has no line. *)
Definition line_text (line : pyval) : option pystr :=
  match line with
  | PyDict d =>
      match lookup (u "text") d with
      | Some (PyStr s) => Some s
      | None => Some []
      | Some _ => None
      end
  | _ => None
  end.

Fixpoint lines_texts (lines : list pyval) : option (list pystr) :=
  match lines with
  | [] => Some []
  | line :: rest =>
      match line_text line, lines_texts rest with
      | Some s, Some ss => Some (s :: ss)
      | _, _ => None
      end
  end.

Definition region_texts (region : pyval) : option (list pystr) :=
  match region with
  | PyDict d =>
      match lookup (u "lines") d with
      | Some (PyList lines) => lines_texts lines
      | None => Some []
      | Some _ => None
      end
  | _ => None
  end.

Fixpoint regions_texts (regions : list pyval) : option (list (list pystr)) :=
  match regions with
  | [] => Some []
  | region :: rest =>
      match region_texts region, regions_texts rest with
      | Some ls, Some lss => Some (ls :: lss)
      | _, _ => None
      end
  end.

Definition nonempty (s : pystr) : bool := negb (Nat.eqb (List.length s) 0).

(** "Concatenate every non-empty line's text across all regions in their
    returned order, joined by newline." *)
Definition flatten (texts : list (list pystr)) : pystr :=
  join [10] (List.filter nonempty (concat texts)).

End Spec.

(** What a signer does with the bytes to hash: the hexadecimal digest, or
    the [UnicodeEncodeError] of [encode] when there are none. *)
Definition sign_outcome (bytes : option (list byte)) : outcome pystr :=
  match bytes with
  | Some data => Return (SHA256.hexdigest data)
  | None =>
      Raise (error UnicodeEncodeError
               (u "'utf-8' codec can't encode: surrogates not allowed"))
  end.

(** The bytes of one code point as numbers, the arithmetic reading of
    [utf8_encode_cp]. *)
Definition cp_bytes (c : N) : list N :=
  if c <? 0x80 then [c]
  else if c <? 0x800 then [192 + c / 64; 128 + c mod 64]
  else if c <? 0x10000 then
    [224 + c / 4096; 128 + (c / 64) mod 64; 128 + c mod 64]
  else [240 + c / 262144; 128 + (c / 4096) mod 64;
        128 + (c / 64) mod 64; 128 + c mod 64].

(** Two lists of signature components that differ in exactly one place. *)
Definition one_differs (xs ys : list pystr) : Prop :=
  exists before x y after,
    xs = before ++ x :: after /\ ys = before ++ y :: after /\ x <> y.

Ltac nlia := zify; Z.to_euclidean_division_equations; lia.

(* ================================================================== *)
(** * Sample inputs *)
(* ================================================================== *)

Definition text_a : pystr := u "0123456789-A-abcdefghij".
Definition text_b : pystr := u "0123456789-B-abcdefghij".

Definition long_text : pystr :=
  u "The quick brown fox jumps over the lazy dog: 敏捷的棕色狐狸".

Arguments SHA256.hexdigest : simpl never.
Arguments SHA256.digest : simpl never.
Arguments utf8_encode : simpl never.
Arguments str_of_int : simpl never.
Arguments u : simpl never.
Arguments strip : simpl never.
Arguments isinstance : simpl never.
Arguments YoudaoTranslator._generate_sign : simpl never.
Arguments YoudaoOCR._generate_sign : simpl never.

(* ================================================================== *)
(** * Vocabulary for the statements about the two clients *)
(* ================================================================== *)

(** The nonce and the timestamp the next call draws from the world. *)
Definition next_salt (w : Net.world) : pystr := uuid4 w (uuid_calls w).
Definition next_time (w : Net.world) : pystr :=
  str_of_int (clock w (clock_calls w)).

(** The world after one call that drew a nonce and a timestamp and sent
    [r]. *)
Definition after_post (w : Net.world) (r : request) : Net.world :=
  Net.mkWorld (uuid4 w) (S (uuid_calls w)) (clock w) (S (clock_calls w))
              (http w) (posted w ++ [r]).

(** The request [translate] sends in world [w], given its signature. *)
Definition translate_request (self : YoudaoTranslator.t)
    (text from_lang to_lang : pystr) (w : Net.world) (sign : pystr) : request :=
  mkRequest YoudaoTranslator.API_URL
    [(u "q", text);
     (u "from", from_lang);
     (u "to", to_lang);
     (u "appKey", YoudaoTranslator.app_key self);
     (u "salt", next_salt w);
     (u "sign", sign);
     (u "signType", u "v3");
     (u "curtime", next_time w)]
    10.

(** The request [recognize] sends in world [w], given its signature. *)
Definition recognize_request (self : YoudaoOCR.t)
    (image_data : list byte) (lang : pystr) (w : Net.world) (sign : pystr)
  : request :=
  mkRequest YoudaoOCR.OCR_API_URL
    [(u "img", Base64.decode_utf8 (Base64.b64encode image_data));
     (u "langType", lang);
     (u "detectType", u "10012");
     (u "imageType", u "1");
     (u "appKey", YoudaoOCR.app_key self);
     (u "salt", next_salt w);
     (u "sign", sign);
     (u "signType", u "v3");
     (u "curtime", next_time w);
     (u "docType", u "json")]
    30.

(** The failure result of [translate]. *)
Definition translate_failure (message text : pystr) : pyval :=
  PyDict [(u "success", PyBool false);
          (u "translation", PyStr (u ""));
          (u "error", PyStr message);
          (u "query", PyStr text)].

(** The failure result of [recognize]. *)
Definition recognize_failure (message : pystr) : pyval :=
  PyDict [(u "success", PyBool false);
          (u "text", PyStr (u ""));
          (u "error", PyStr message);
          (u "regions", PyList [])].

(** A field of a JSON object, or the default when it is absent. *)
Definition field (body : list (pystr * pyval)) (key : pystr) (default : pyval)
  : pyval :=
  match lookup key body with Some v => v | None => default end.

(** A text is blank when it is empty or made of whitespace only. *)
Definition blank (text : pystr) : bool := forallb isspace text.

(** A line and a region as the OCR service returns them. *)
Definition ocr_line (text : pystr) : pyval :=
  PyDict [(u "boundingBox", PyStr (u "0,0,10,10")); (u "text", PyStr text)].
Definition ocr_region (texts : list pystr) : pyval :=
  PyDict [(u "lang", PyStr (u "en")); (u "lines", PyList (map ocr_line texts))].

(** A world whose clock and uuid generator are fixed and whose remote end
    answers every request the same way. *)
Definition fixed_world (remote : outcome response) : Net.world :=
  Net.mkWorld (fun _ => u "d3b0c442-98fc-4c14-9afb-f4c8996fb924") 0
              (fun _ => 1700000000%Z) 0 (fun _ => remote) [].

Definition json_reply (v : pyval) : outcome response :=
  Return (mkResponse (Return v)).

(** An HTTP reply whose body is not JSON, as [Response.json()] reports
    it. *)
Definition not_json_reply : outcome response :=
  Return (mkResponse
            (Raise (invalid_json (u "Expecting value: line 1 column 1 (char 0)")))).

Definition demo_translator : YoudaoTranslator.t :=
  YoudaoTranslator.mk (u "myAppKey") (u "s3cr3t").
Definition demo_ocr : YoudaoOCR.t :=
  YoudaoOCR.mk (u "myAppKey") (u "s3cr3t").

(** The signature of the request for "hello" in [fixed_world], and of the
    OCR requests for [sample_image] and for the empty image, as [hashlib]
    computes them. *)
Definition hello_sign : pystr :=
  u "7f8fd85165eac8d51f489550abf28e61b7cac634265a8f5d7427a71af67adb63".

Definition sample_image : list byte :=
  list_byte_of_string "not really a PNG, only some bytes".

Definition sample_image_sign : pystr :=
  u "8b89dd6373ff0048ff6fb4bee52df57ab8788dbfd96e1935e2d96101de82139a".

Definition empty_image_sign : pystr :=
  u "2a092a41fb2b6acb6e543acac13e4d11847c5c2f5d8524a7eb978ec46fac1ba0".

(** Sample response bodies. *)
Definition nihao_body : list (pystr * pyval) :=
  [(u "errorCode", PyStr (u "0"));
   (u "query", PyStr (u "hello"));
   (u "translation", PyList [PyStr (u "你好")])].

Definition rate_limited_body : list (pystr * pyval) :=
  [(u "errorCode", PyStr (u "411"))].

Definition two_regions : list pyval :=
  [ocr_region [u "A"; u "B"]; ocr_region [u "C"]].

Definition ocr_body : list (pystr * pyval) :=
  [(u "errorCode", PyStr (u "0"));
   (u "Result", PyDict [(u "orientation", PyStr (u "UP"));
                        (u "regions", PyList two_regions)])].

(** Three whitespace characters: a space, a tab, an ideographic space. *)
Definition blank_text : pystr := [0x20; 0x09; 0x3000].

Definition bytes_or_empty (o : option (list byte)) : list byte :=
  match o with Some data => data | None => [] end.

(** The codes only the OCR table knows. *)
Definition ocr_only_codes : list pystr :=
  [u "1001"; u "1002"; u "1003"; u "1004"; u "1006"; u "1201"; u "1301"].

Definition mapped (table : list (pystr * pystr)) (code : pystr) : bool :=
  match assoc code table with Some _ => true | None => false end.

(** A start-up world: another process holds the instance lock, nothing is
    write-protected, no signal is pending. *)
Definition second_start : Main.world :=
  Main.mkWorld {[Main.LOCK_FILE := []]} ∅ {[Main.LOCK_FILE]} ∅ [] 0.

(** A start-up world with no other instance. *)
Definition first_start : Main.world :=
  Main.mkWorld ∅ ∅ ∅ ∅ [] 0.

(** Stand-ins for the collaborators of the start-up. *)
Definition idle_app : M (W:=Main.world) unit := ret tt.
Definition no_autostart (enable : bool) : M (W:=Main.world) bool := ret enable.
Definition autostart_off : M (W:=Main.world) bool := ret false.
(* ================================================================== *)
(** * Test vectors for the library models *)
(* ================================================================== *)

Example sha256_empty :
  SHA256.hexdigest [] = u "e3b0c44298fc1c149afbf4c8996fb92427ae41e4649b934ca495991b7852b855".
Proof. vm_compute. reflexivity. Qed.

Example sha256_abc :
  SHA256.hexdigest (bytes_of_ascii "abc")
  = u "ba7816bf8f01cfea414140de5dae2223b00361a396177a9cb410ff61f20015ad".
Proof. vm_compute. reflexivity. Qed.

Example sha256_two_blocks :
  SHA256.hexdigest (bytes_of_ascii "abcdbcdecdefdefgefghfghighijhijkijkljklmklmnlmnomnopnopq")
  = u "248d6a61d20638b8e5c026930c3e6039a33ce45964ff2167f6ecedd419db06c1".
Proof. vm_compute. reflexivity. Qed.

Example b64_vectors :
  Base64.b64encode (bytes_of_ascii "") = bytes_of_ascii ""
  /\ Base64.b64encode (bytes_of_ascii "f") = bytes_of_ascii "Zg=="
  /\ Base64.b64encode (bytes_of_ascii "fo") = bytes_of_ascii "Zm8="
  /\ Base64.b64encode (bytes_of_ascii "foo") = bytes_of_ascii "Zm9v"
  /\ Base64.b64encode (bytes_of_ascii "foobar") = bytes_of_ascii "Zm9vYmFy".
Proof. vm_compute. repeat split; reflexivity. Qed.

Example literals :
  u "show" = [115; 104; 111; 119] /\ u "你好" = [0x4F60; 0x597D]
  /\ utf8_encode [0x4F60; 0x597D]
     = Some (list_byte_of_string "你好")
  /\ utf8_encode [0x1F600] = Some [xf0; x9f; x98; x80]
  /\ utf8_encode [0xD800] = None.
Proof. vm_compute. repeat split; reflexivity. Qed.

Example python_str_functions :
  str_of_int 21 = u "21" /\ str_of_int 0 = u "0" /\ str_of_int (-7) = u "-7"
  /\ slice (u "abcdefghijklmnopqrstuvwxyz") None (Some 10%Z) = u "abcdefghij"
  /\ slice (u "abcdefghijklmnopqrstuvwxyz") (Some (-10)%Z) None = u "qrstuvwxyz"
  /\ slice (u "abc") None (Some 10%Z) = u "abc"
  /\ slice (u "abc") (Some (-10)%Z) None = u "abc"
  /\ strip ([32; 9] ++ u "a b" ++ [32; 10; 0x3000]) = u "a b"
  /\ join [10] [u "A"; u "B"; u "C"] = [65; 10; 66; 10; 67]
  /\ join [10] [] = [].
Proof. vm_compute. repeat split; reflexivity. Qed.

Example exception_classes :
  issubclass RequestsJSONDecodeError RequestException = true
  /\ issubclass RequestsJSONDecodeError JSONDecodeError = true
  /\ issubclass JSONDecodeError RequestException = false
  /\ issubclass ConnectTimeout Timeout = true
  /\ issubclass Timeout RequestException = true
  /\ issubclass ConnectionError Timeout = false
  /\ issubclass BlockingIOError OSError = true
  /\ issubclass AttributeError RequestException = false
  /\ issubclass SystemExit Exception = false.
Proof. repeat split; reflexivity. Qed.

(* ================================================================== *)
(** * Strings: slices, encoding *)
(* ================================================================== *)

(** [str(n)] of a non-negative [int] is the digit string of a decimal
    numeral whose value is [n]. *)
Lemma str_of_int_decimal (z : Z) :
  (0 <= z)%Z ->
  exists d, str_of_int z = uint_digits d /\ Z.of_uint d = z.
Proof.
  intros Hz. unfold str_of_int.
  destruct z as [|p|p]; [| |lia].
  - exists (Decimal.D0 Decimal.Nil). split; reflexivity.
  - exists (Pos.to_uint p). split; [reflexivity|].
    unfold Z.of_uint. now rewrite DecimalPos.Unsigned.of_to.
Qed.

Lemma slice_prefix {A} (s : list A) (n : nat) :
  slice s None (Some (Z.of_nat n)) = firstn n s.
Proof.
  unfold slice, slice_index, len.
  assert (Hn : (Z.of_nat n <? 0)%Z = false) by (apply Z.ltb_ge; lia).
  rewrite Hn. change (Z.to_nat 0) with O. rewrite skipn_O.
  replace (Z.to_nat (Z.min (Z.of_nat n) (Z.of_nat (List.length s)) - 0))
    with (Nat.min n (List.length s)) by lia.
  destruct (Nat.le_ge_cases n (List.length s)) as [Hle | Hge].
  - now rewrite Nat.min_l.
  - rewrite Nat.min_r by assumption.
    now rewrite !firstn_all2 by lia.
Qed.

Lemma slice_suffix {A} (s : list A) (n : nat) :
  (0 < n)%nat ->
  slice s (Some (- Z.of_nat n)%Z) None = skipn (List.length s - n) s.
Proof.
  intros Hpos. unfold slice, slice_index, len.
  assert (Hn : (- Z.of_nat n <? 0)%Z = true) by (apply Z.ltb_lt; lia).
  rewrite Hn.
  replace (Z.to_nat (Z.max 0 (Z.of_nat (List.length s) + - Z.of_nat n)))
    with (List.length s - n)%nat by lia.
  apply firstn_all2. rewrite length_skipn. lia.
Qed.

Lemma last_chars_skipn (s : pystr) (n : nat) :
  Spec.last_chars n s = skipn (List.length s - n) s.
Proof.
  unfold Spec.last_chars. rewrite firstn_rev, rev_involutive. reflexivity.
Qed.

(** The digest-input the two signers compute is the one the specification
    describes. *)
Lemma input_str_spec (q : pystr) :
  (if (len q <=? 20)%Z then q
   else slice q None (Some 10%Z) ++ str_of_int (len q)
        ++ slice q (Some (-10)%Z) None)
  = Spec.digest_input q.
Proof.
  unfold Spec.digest_input, len.
  destruct (Nat.leb_spec (List.length q) 20) as [Hle | Hgt].
  - replace (Z.of_nat (List.length q) <=? 20)%Z with true
      by (symmetry; apply Z.leb_le; lia).
    reflexivity.
  - replace (Z.of_nat (List.length q) <=? 20)%Z with false
      by (symmetry; apply Z.leb_gt; lia).
    change 10%Z with (Z.of_nat 10). rewrite slice_prefix.
    change (-10)%Z with (- Z.of_nat 10)%Z.
    rewrite (slice_suffix q 10) by lia.
    rewrite last_chars_skipn. reflexivity.
Qed.

Lemma utf8_encode_cons (c : codepoint) (s : pystr) :
  utf8_encode (c :: s)
  = match utf8_encode_cp c, utf8_encode s with
    | Some bs, Some rest => Some (bs ++ rest)
    | _, _ => None
    end.
Proof. reflexivity. Qed.

Lemma utf8_encode_cp_scalar (c : codepoint) :
  is_scalar c = true -> exists bs, utf8_encode_cp c = Some bs.
Proof.
  unfold is_scalar, utf8_encode_cp. intros H.
  apply andb_prop in H as [Hmax Hsur].
  apply negb_true_iff in Hsur. rewrite Hsur, Hmax.
  destruct (c <? 128); [eauto|].
  destruct (c <? 2048); [eauto|].
  destruct (c <? 65536); eauto.
Qed.

(** Encoding succeeds on every string of scalar values. *)
Lemma utf8_encode_total (s : pystr) :
  encodable s = true -> exists data, utf8_encode s = Some data.
Proof.
  induction s as [|c s IH]; intros H.
  - exists []. reflexivity.
  - cbn in H. apply andb_prop in H as [Hc Hs].
    destruct (utf8_encode_cp_scalar c Hc) as [bs Hbs].
    destruct (IH Hs) as [rest Hrest].
    exists (bs ++ rest). rewrite utf8_encode_cons, Hbs, Hrest. reflexivity.
Qed.

Lemma encodable_app (a b : pystr) :
  encodable (a ++ b) = encodable a && encodable b.
Proof. apply forallb_app. Qed.

Lemma uint_digits_encodable (d : Decimal.uint) :
  encodable (uint_digits d) = true.
Proof. induction d; cbn; auto. Qed.

Lemma str_of_int_encodable (z : Z) : encodable (str_of_int z) = true.
Proof.
  unfold str_of_int. destruct (Z.to_int z); cbn;
    apply uint_digits_encodable.
Qed.

Lemma encodable_firstn (n : nat) (s : pystr) :
  encodable s = true -> encodable (firstn n s) = true.
Proof.
  intros H. rewrite <- (firstn_skipn n s), encodable_app in H.
  now apply andb_prop in H.
Qed.

Lemma encodable_skipn (n : nat) (s : pystr) :
  encodable s = true -> encodable (skipn n s) = true.
Proof.
  intros H. rewrite <- (firstn_skipn n s), encodable_app in H.
  now apply andb_prop in H.
Qed.

Lemma digest_input_encodable (q : pystr) :
  encodable q = true -> encodable (Spec.digest_input q) = true.
Proof.
  intros H. unfold Spec.digest_input, Spec.first_chars.
  destruct (List.length q <=? 20)%nat; [assumption|].
  rewrite last_chars_skipn, !encodable_app.
  rewrite encodable_firstn, str_of_int_encodable, encodable_skipn by assumption.
  reflexivity.
Qed.


(* ================================================================== *)
(** * UTF-8: decoding inverts encoding *)
(* ================================================================== *)

Lemma lor_disjoint (h l k : N) :
  l < 2 ^ k -> N.lor (N.shiftl h k) l = h * 2 ^ k + l.
Proof.
  intros Hl.
  assert (Hland : N.land (N.shiftl h k) l = 0).
  { apply N.bits_inj_0. intros n. rewrite N.land_spec.
    destruct (N.lt_ge_cases n k) as [Hlt | Hge].
    - rewrite N.shiftl_spec_low by assumption. reflexivity.
    - rewrite <- (N.mod_small l (2 ^ k)) by assumption.
      rewrite N.mod_pow2_bits_high by assumption.
      apply Bool.andb_false_r. }
  rewrite <- N.lxor_lor by assumption.
  rewrite <- N.add_nocarry_lxor by assumption.
  rewrite N.shiftl_mul_pow2. reflexivity.
Qed.

Lemma to_N_byte_of_N (n : N) : n < 256 -> Byte.to_N (byte_of_N n) = n.
Proof.
  intros Hn. unfold byte_of_N.
  destruct (Byte.of_N n) as [b|] eqn:E.
  - now apply Byte.to_of_N.
  - apply Byte.of_N_None_iff in E. lia.
Qed.

(** The bit operations of the codec as arithmetic. *)
Lemma low6 (a : N) : N.land a 0x3F = a mod 64.
Proof. change 0x3F with (N.ones 6). now rewrite N.land_ones. Qed.
Lemma low5 (a : N) : N.land a 0x1F = a mod 32.
Proof. change 0x1F with (N.ones 5). now rewrite N.land_ones. Qed.
Lemma low4 (a : N) : N.land a 0x0F = a mod 16.
Proof. change 0x0F with (N.ones 4). now rewrite N.land_ones. Qed.
Lemma low3 (a : N) : N.land a 0x07 = a mod 8.
Proof. change 0x07 with (N.ones 3). now rewrite N.land_ones. Qed.

Lemma lead_80 (x : N) : x < 64 -> N.lor 0x80 x = 128 + x.
Proof. intros. change 0x80 with (N.shiftl 2 6). now rewrite lor_disjoint. Qed.
Lemma lead_C0 (x : N) : x < 32 -> N.lor 0xC0 x = 192 + x.
Proof. intros. change 0xC0 with (N.shiftl 6 5). now rewrite lor_disjoint. Qed.
Lemma lead_E0 (x : N) : x < 16 -> N.lor 0xE0 x = 224 + x.
Proof. intros. change 0xE0 with (N.shiftl 14 4). now rewrite lor_disjoint. Qed.
Lemma lead_F0 (x : N) : x < 8 -> N.lor 0xF0 x = 240 + x.
Proof. intros. change 0xF0 with (N.shiftl 30 3). now rewrite lor_disjoint. Qed.

Lemma pack2 (a b : N) : b < 64 -> N.lor (N.shiftl a 6) b = a * 64 + b.
Proof. intros. now rewrite lor_disjoint. Qed.
Lemma pack3 (a b : N) : b < 4096 -> N.lor (N.shiftl a 12) b = a * 4096 + b.
Proof. intros. now rewrite lor_disjoint. Qed.
Lemma pack4 (a b : N) : b < 262144 -> N.lor (N.shiftl a 18) b = a * 262144 + b.
Proof. intros. now rewrite lor_disjoint. Qed.

Lemma shr6 (c : N) : N.shiftr c 6 = c / 64.
Proof. now rewrite N.shiftr_div_pow2. Qed.
Lemma shr12 (c : N) : N.shiftr c 12 = c / 4096.
Proof. now rewrite N.shiftr_div_pow2. Qed.
Lemma shr18 (c : N) : N.shiftr c 18 = c / 262144.
Proof. now rewrite N.shiftr_div_pow2. Qed.

Lemma utf8_encode_cp_bytes (c : N) (bs : list byte) :
  utf8_encode_cp c = Some bs -> map Byte.to_N bs = cp_bytes c.
Proof.
  unfold utf8_encode_cp, cp_bytes.
  destruct (N.ltb_spec c 0x80) as [H1|H1].
  { intros [= <-]. cbn [map]. rewrite to_N_byte_of_N by lia. reflexivity. }
  destruct (N.ltb_spec c 0x800) as [H2|H2].
  { intros [= <-]. cbn [map]. rewrite shr6, low6.
    rewrite lead_C0, lead_80 by nlia.
    rewrite !to_N_byte_of_N by nlia. reflexivity. }
  destruct (N.ltb_spec c 0x10000) as [H3|H3].
  { destruct (is_surrogate c); [discriminate|].
    intros [= <-]. cbn [map]. rewrite shr6, shr12, !low6.
    rewrite lead_E0, !lead_80 by nlia.
    rewrite !to_N_byte_of_N by nlia. reflexivity. }
  destruct (N.leb_spec c 0x10FFFF) as [H4|H4]; [|discriminate].
  intros [= <-]. cbn [map]. rewrite shr6, shr12, shr18, !low6.
  rewrite lead_F0, !lead_80 by nlia.
  rewrite !to_N_byte_of_N by nlia. reflexivity.
Qed.

Lemma utf8_decode_cp_bytes (c : N) (rest : list N) :
  c <= 0x10FFFF ->
  utf8_decode (cp_bytes c ++ rest) = c :: utf8_decode rest.
Proof.
  intros Hmax. unfold cp_bytes.
  destruct (N.ltb_spec c 0x80) as [H1|H1].
  { cbn [app utf8_decode]. destruct (N.ltb_spec c 0x80); [reflexivity|lia]. }
  destruct (N.ltb_spec c 0x800) as [H2|H2].
  { cbn [app utf8_decode].
    destruct (N.ltb_spec (192 + c / 64) 0x80); [nlia|].
    destruct (N.ltb_spec (192 + c / 64) 0xE0); [|nlia].
    f_equal. rewrite low5, low6, pack2 by nlia. nlia. }
  destruct (N.ltb_spec c 0x10000) as [H3|H3].
  { cbn [app utf8_decode].
    destruct (N.ltb_spec (224 + c / 4096) 0x80); [nlia|].
    destruct (N.ltb_spec (224 + c / 4096) 0xE0); [nlia|].
    destruct (N.ltb_spec (224 + c / 4096) 0xF0); [|nlia].
    f_equal. rewrite low4, !low6, pack2 by nlia. rewrite pack3 by nlia. nlia. }
  cbn [app utf8_decode].
  destruct (N.ltb_spec (240 + c / 262144) 0x80); [nlia|].
  destruct (N.ltb_spec (240 + c / 262144) 0xE0); [nlia|].
  destruct (N.ltb_spec (240 + c / 262144) 0xF0); [nlia|].
  f_equal. rewrite low3, !low6, pack2 by nlia. rewrite pack3 by nlia.
  rewrite pack4 by nlia. nlia.
Qed.

Lemma utf8_encode_cp_max (c : N) (bs : list byte) :
  utf8_encode_cp c = Some bs -> c <= 0x10FFFF.
Proof.
  unfold utf8_encode_cp.
  destruct (N.ltb_spec c 0x80); [lia|].
  destruct (N.ltb_spec c 0x800); [lia|].
  destruct (N.ltb_spec c 0x10000); [lia|].
  destruct (N.leb_spec c 0x10FFFF); [lia|discriminate].
Qed.

Lemma utf8_roundtrip (s : pystr) (data : list byte) :
  utf8_encode s = Some data -> utf8_decode (map Byte.to_N data) = s.
Proof.
  revert data. induction s as [|c s IH]; intros data.
  - intros [= <-]. reflexivity.
  - rewrite utf8_encode_cons.
    destruct (utf8_encode_cp c) as [bs|] eqn:Ec; [|discriminate].
    destruct (utf8_encode s) as [rest|] eqn:Es; [|discriminate].
    intros [= <-]. rewrite map_app, (utf8_encode_cp_bytes c bs Ec).
    rewrite utf8_decode_cp_bytes by (eapply utf8_encode_cp_max; eassumption).
    f_equal. now apply IH.
Qed.

(** Distinct strings have distinct UTF-8 encodings. *)
Lemma utf8_encode_inj (s s' : pystr) (data : list byte) :
  utf8_encode s = Some data -> utf8_encode s' = Some data -> s = s'.
Proof.
  intros H H'. apply utf8_roundtrip in H, H'. congruence.
Qed.

(* ================================================================== *)
(** * The signature (C1, C6) *)
(* ================================================================== *)

(** Both signers, on every input, hash the bytes the specification names;
    they raise exactly when these bytes do not exist. *)
Lemma translator_sign_eq (self : YoudaoTranslator.t) (q salt curtime : pystr) :
  YoudaoTranslator._generate_sign self q salt curtime
  = sign_outcome (Spec.signed_bytes (YoudaoTranslator.app_key self) q salt
                    curtime (YoudaoTranslator.app_secret self)).
Proof.
  unfold YoudaoTranslator._generate_sign, Spec.signed_bytes, sign_outcome.
  cbv zeta. rewrite input_str_spec. reflexivity.
Qed.

Lemma ocr_sign_eq (self : YoudaoOCR.t) (img salt curtime : pystr) :
  YoudaoOCR._generate_sign self img salt curtime
  = sign_outcome (Spec.signed_bytes (YoudaoOCR.app_key self) img salt
                    curtime (YoudaoOCR.app_secret self)).
Proof.
  unfold YoudaoOCR._generate_sign, Spec.signed_bytes, sign_outcome.
  cbv zeta. rewrite input_str_spec. reflexivity.
Qed.

Lemma signed_bytes_total (app_id payload salt timestamp secret : pystr) :
  encodable app_id = true -> encodable payload = true ->
  encodable salt = true -> encodable timestamp = true ->
  encodable secret = true ->
  exists data,
    Spec.signed_bytes app_id payload salt timestamp secret = Some data.
Proof.
  intros Ha Hp Hs Ht Hk. apply utf8_encode_total.
  rewrite !encodable_app, Ha, Hs, Ht, Hk, digest_input_encodable by assumption.
  reflexivity.
Qed.

Lemma hex_byte_lower (b : byte) :
  forallb Spec.lower_hex (SHA256.hex_byte b) = true.
Proof. destruct b; reflexivity. Qed.

Lemma digest_length (m : list byte) : List.length (SHA256.digest m) = 32%nat.
Proof.
  unfold SHA256.digest.
  destruct (SHA256.blocks _ _ _) as [[[[[[[a b] c] d] e] f] g] h].
  reflexivity.
Qed.

Lemma hexdigest_shape (m : list byte) :
  List.length (SHA256.hexdigest m) = 64%nat
  /\ forallb Spec.lower_hex (SHA256.hexdigest m) = true.
Proof.
  unfold SHA256.hexdigest. pose proof (digest_length m) as Hlen.
  revert Hlen. generalize (SHA256.digest m) as d. intros d.
  assert (Hgen : forall l : list byte,
             List.length (flat_map SHA256.hex_byte l) = (2 * List.length l)%nat
             /\ forallb Spec.lower_hex (flat_map SHA256.hex_byte l) = true).
  { induction l as [|b l [IHlen IHhex]]; [split; reflexivity|].
    split.
    - cbn [flat_map]. rewrite length_app, IHlen. cbn. lia.
    - cbn [flat_map]. rewrite forallb_app, hex_byte_lower, IHhex. reflexivity. }
  intros Hlen. destruct (Hgen d) as [H1 H2]. split; [lia | assumption].
Qed.

(** C1 -- The digest-input is the payload itself when it has at most 20
    characters and otherwise its first 10 characters, the decimal string of
    its length and its last 10 characters ([Spec.digest_input]); the
    signature is the lowercase hexadecimal SHA-256 of the UTF-8 bytes of
    app_id + digest_input + salt + timestamp + secret
    ([Spec.signed_bytes]); the translation signer and the OCR signer
    compute exactly this, for every payload, salt, timestamp, app id and
    secret that UTF-8 can encode. *)
Theorem C1_signature_scheme (app_id secret payload salt timestamp : pystr) :
  encodable app_id = true -> encodable payload = true ->
  encodable salt = true -> encodable timestamp = true ->
  encodable secret = true ->
  exists data,
    Spec.signed_bytes app_id payload salt timestamp secret = Some data
    /\ YoudaoTranslator._generate_sign (YoudaoTranslator.mk app_id secret)
         payload salt timestamp = Return (SHA256.hexdigest data)
    /\ YoudaoOCR._generate_sign (YoudaoOCR.mk app_id secret)
         payload salt timestamp = Return (SHA256.hexdigest data)
    /\ List.length (SHA256.hexdigest data) = 64%nat
    /\ forallb Spec.lower_hex (SHA256.hexdigest data) = true.
Proof.
  intros Ha Hp Hs Ht Hk.
  destruct (signed_bytes_total app_id payload salt timestamp secret
              Ha Hp Hs Ht Hk) as [data Hdata].
  exists data. split; [assumption|].
  rewrite translator_sign_eq, ocr_sign_eq. cbn [YoudaoTranslator.app_key
    YoudaoTranslator.app_secret YoudaoOCR.app_key YoudaoOCR.app_secret].
  rewrite Hdata. cbn [sign_outcome].
  repeat split; apply hexdigest_shape.
Qed.

Lemma C1_signature_scheme_witness :
  exists data,
    Spec.signed_bytes (u "myAppKey") long_text
      (u "d3b0c442-98fc-4c14-9afb-f4c8996fb924") (u "1700000000") (u "s3cr3t")
    = Some data
    /\ YoudaoTranslator._generate_sign
         (YoudaoTranslator.mk (u "myAppKey") (u "s3cr3t")) long_text
         (u "d3b0c442-98fc-4c14-9afb-f4c8996fb924") (u "1700000000")
       = Return (SHA256.hexdigest data)
    /\ YoudaoOCR._generate_sign
         (YoudaoOCR.mk (u "myAppKey") (u "s3cr3t")) long_text
         (u "d3b0c442-98fc-4c14-9afb-f4c8996fb924") (u "1700000000")
       = Return (SHA256.hexdigest data)
    /\ List.length (SHA256.hexdigest data) = 64%nat
    /\ forallb Spec.lower_hex (SHA256.hexdigest data) = true.
Proof.
  apply (C1_signature_scheme (u "myAppKey") (u "s3cr3t") long_text
           (u "d3b0c442-98fc-4c14-9afb-f4c8996fb924") (u "1700000000"));
    vm_compute; reflexivity.
Defined.

(** The signers agree with [hashlib] on concrete requests: a short text, a
    text longer than 20 characters, and a base64 payload. *)
Example sign_short_text :
  YoudaoTranslator._generate_sign
    (YoudaoTranslator.mk (u "myAppKey") (u "s3cr3t")) (u "你好，世界")
    (u "d3b0c442-98fc-4c14-9afb-f4c8996fb924") (u "1700000000")
  = Return (u "cafa8946f947a6bb01ee5cafaba60e23126211e146789e9675e5fc6a654e3b25").
Proof. vm_compute. reflexivity. Qed.

Example sign_long_text :
  Spec.digest_input long_text = u "The quick 52g: 敏捷的棕色狐狸"
  /\ YoudaoTranslator._generate_sign
       (YoudaoTranslator.mk (u "myAppKey") (u "s3cr3t")) long_text
       (u "d3b0c442-98fc-4c14-9afb-f4c8996fb924") (u "1700000000")
     = Return (u "360893aa2ab9f21be6ab430edd7e608d40a9089238182243f5a20dc549728a2d").
Proof. split; vm_compute; reflexivity. Qed.

(** C6, as the specification states it, fails: two texts longer than 20
    characters that agree on their length, first 10 and last 10 characters
    receive the same signature although exactly one input, the text,
    differs. *)
Lemma C6_counterexample :
  ~ (forall (self : YoudaoTranslator.t) (q q' salt curtime : pystr),
        q <> q' ->
        YoudaoTranslator._generate_sign self q salt curtime
        <> YoudaoTranslator._generate_sign self q' salt curtime).
Proof.
  intros claim.
  apply (claim (YoudaoTranslator.mk (u "myAppKey") (u "s3cr3t"))
               text_a text_b (u "salt") (u "1700000000")).
  - vm_compute. discriminate.
  - vm_compute. reflexivity.
Qed.

Lemma one_differs_concat (xs ys : list pystr) :
  one_differs xs ys -> concat xs <> concat ys.
Proof.
  intros (before & x & y & after & -> & -> & Hxy) Heq.
  rewrite !concat_app in Heq. cbn [concat] in Heq.
  apply app_inv_head in Heq. apply app_inv_tail in Heq. contradiction.
Qed.

(** C6 (amended) -- The signature is a function of its inputs, and of the
    text only through its digest-input: equal app id, digest-input, salt,
    timestamp and secret give equal digests.  When exactly one of these
    five components differs, the byte strings handed to SHA-256 differ. *)
Theorem C6_signature_function
    (a q s t k a' q' s' t' k' : pystr) (m m' : list byte) :
  Spec.signed_bytes a q s t k = Some m ->
  Spec.signed_bytes a' q' s' t' k' = Some m' ->
  YoudaoTranslator._generate_sign (YoudaoTranslator.mk a k) q s t
    = Return (SHA256.hexdigest m)
  /\ YoudaoTranslator._generate_sign (YoudaoTranslator.mk a' k') q' s' t'
    = Return (SHA256.hexdigest m')
  /\ ([a; Spec.digest_input q; s; t; k]
       = [a'; Spec.digest_input q'; s'; t'; k'] ->
       SHA256.hexdigest m = SHA256.hexdigest m')
  /\ (one_differs [a; Spec.digest_input q; s; t; k]
                  [a'; Spec.digest_input q'; s'; t'; k'] ->
       m <> m').
Proof.
  intros Hm Hm'. rewrite !translator_sign_eq.
  cbn [YoudaoTranslator.app_key YoudaoTranslator.app_secret].
  rewrite Hm, Hm'. cbn [sign_outcome].
  repeat split.
  - intros [= -> Hq -> -> ->]. unfold Spec.signed_bytes in Hm, Hm'.
    rewrite Hq in Hm. congruence.
  - intros Hone Heq. subst m'.
    apply one_differs_concat in Hone. apply Hone.
    cbn [concat]. rewrite !app_nil_r.
    exact (utf8_encode_inj _ _ m Hm Hm').
Qed.

(* ================================================================== *)
(** * The two clients (C2, C3, C4, C5, C7, C10) *)
(* ================================================================== *)
Lemma str_eqb_eq (a b : pystr) : str_eqb a b = true <-> a = b.
Proof.
  revert b. induction a as [|x a IH]; intros [|y b]; cbn; split; try easy.
  - intros H. apply andb_prop in H as [Hx Ha].
    apply N.eqb_eq in Hx. apply IH in Ha. congruence.
  - intros [= -> ->]. rewrite N.eqb_refl. now apply IH.
Qed.

Lemma str_eqb_refl (a : pystr) : str_eqb a a = true.
Proof. now apply str_eqb_eq. Qed.

Lemma str_eqb_neq (a b : pystr) : a <> b -> str_eqb a b = false.
Proof.
  intros H. destruct (str_eqb a b) eqn:E; [|reflexivity].
  now apply str_eqb_eq in E.
Qed.

Lemma lstrip_nil_iff (s : pystr) : lstrip s = [] <-> blank s = true.
Proof.
  induction s as [|c s IH]; cbn; [easy|].
  destruct (isspace c); cbn; [exact IH|easy].
Qed.

Lemma blank_rev (s : pystr) : blank (rev s) = blank s.
Proof.
  unfold blank. induction s as [|c s IH]; [reflexivity|].
  cbn. rewrite forallb_app, IH. cbn. rewrite andb_true_r. apply andb_comm.
Qed.

Lemma blank_lstrip (s : pystr) : blank (lstrip s) = blank s.
Proof.
  induction s as [|c s IH]; [reflexivity|].
  cbn. destruct (isspace c) eqn:E; cbn; rewrite ?E; auto.
Qed.

(** [text.strip()] is empty exactly for a blank text. *)
Lemma strip_nil_iff (s : pystr) : strip s = [] <-> blank s = true.
Proof.
  unfold strip, rstrip.
  rewrite <- (blank_lstrip s), <- (blank_rev (lstrip s)), <- lstrip_nil_iff.
  split; intros H.
  - apply (f_equal (@rev _)) in H. now rewrite rev_involutive in H.
  - now rewrite H.
Qed.

Lemma strip_truthy (s : pystr) :
  truthy (PyStr (strip s)) = negb (blank s).
Proof.
  cbn [truthy]. destruct (blank s) eqn:E.
  - apply strip_nil_iff in E. now rewrite E.
  - destruct (strip s) eqn:Es; [|reflexivity].
    apply strip_nil_iff in Es. congruence.
Qed.

(** C2 -- For every text that is empty or consists only of whitespace,
    [translate] returns at once success=false, an empty translation, the
    empty-input message and the text echoed in the query field; the world is
    left untouched, so no request has been sent (and no nonce or timestamp
    drawn). *)
Theorem C2_blank_text_rejected
    (self : YoudaoTranslator.t) (text from_lang to_lang : pystr)
    (w : Net.world) :
  blank text = true ->
  YoudaoTranslator.translate self text from_lang to_lang w
  = (Return (translate_failure (u "翻译文本不能为空") text), w)
  /\ posted (snd (YoudaoTranslator.translate self text from_lang to_lang w))
     = posted w.
Proof.
  intros Hblank. unfold YoudaoTranslator.translate.
  rewrite strip_truthy, Hblank. split; reflexivity.
Qed.

Lemma C2_blank_text_rejected_witness :
  YoudaoTranslator.translate demo_translator blank_text (u "auto") (u "en")
    (fixed_world not_json_reply)
  = (Return (translate_failure (u "翻译文本不能为空") blank_text),
     fixed_world not_json_reply)
  /\ posted (snd (YoudaoTranslator.translate demo_translator blank_text
                    (u "auto") (u "en") (fixed_world not_json_reply)))
     = posted (fixed_world not_json_reply).
Proof.
  apply (C2_blank_text_rejected demo_translator blank_text (u "auto") (u "en")
           (fixed_world not_json_reply)).
  reflexivity.
Defined.

(** The empty text is blank. *)
Example translate_empty_text :
  fst (YoudaoTranslator.translate demo_translator (u "") (u "auto") (u "en")
         (fixed_world not_json_reply))
  = Return (translate_failure (u "翻译文本不能为空") (u "")).
Proof. reflexivity. Qed.



(** Symbolic execution of a client call up to the HTTP request. *)
Ltac client_start Hblank Hsign :=
  unfold translate_request, recognize_request, next_salt, next_time,
    after_post in *;
  try (unfold YoudaoTranslator.translate; rewrite strip_truthy, Hblank);
  try unfold YoudaoOCR.recognize;
  cbn; rewrite Hsign;
  unfold try_except, bind, requests_post, response_json, lift; cbn.

Lemma all_str_map (parts : list pystr) : all_str (map PyStr parts) = Some parts.
Proof. induction parts as [|p parts IH]; cbn; [|rewrite IH]; reflexivity. Qed.

Lemma str_join_list (sep : pystr) (parts : list pystr) :
  str_join sep (PyList (map PyStr parts)) = Return (join sep parts).
Proof. unfold str_join. cbn [iterate]. now rewrite all_str_map. Qed.

(** C3 -- For every JSON object response whose errorCode is the string "0"
    and whose translation field is a list of string segments, or absent,
    [translate] returns success=true with the segments joined by newline
    (the empty string for no segment), after sending exactly its one
    request. *)
Theorem C3_success_response
    (self : YoudaoTranslator.t) (text from_lang to_lang : pystr)
    (w : Net.world) (sign : pystr) (resp : response)
    (body : list (pystr * pyval)) (segments : list pystr) :
  blank text = false ->
  YoudaoTranslator._generate_sign self text (next_salt w) (next_time w)
    = Return sign ->
  http w (translate_request self text from_lang to_lang w sign)
    = Return resp ->
  resp_json resp = Return (PyDict body) ->
  lookup (u "errorCode") body = Some (PyStr (u "0")) ->
  field body (u "translation") (PyList []) = PyList (map PyStr segments) ->
  YoudaoTranslator.translate self text from_lang to_lang w
  = (Return (PyDict [(u "success", PyBool true);
                     (u "translation", PyStr (join newline segments));
                     (u "error", PyStr (u ""));
                     (u "query", field body (u "query") (PyStr text));
                     (u "speakUrl", field body (u "speakUrl") (PyStr (u "")));
                     (u "tSpeakUrl", field body (u "tSpeakUrl") (PyStr (u "")))]),
     after_post w (translate_request self text from_lang to_lang w sign)).
Proof.
  intros Hblank Hsign Hhttp Hjson Hcode Htr.
  client_start Hblank Hsign.
  rewrite Hhttp, Hjson. cbn. rewrite Hcode. cbn.
  unfold field in Htr |- *. rewrite Htr.
  destruct segments as [|s0 rest].
  - reflexivity.
  - cbn [map truthy List.length Nat.eqb negb].
    change (PyStr s0 :: map PyStr rest) with (map PyStr (s0 :: rest)).
    rewrite str_join_list. reflexivity.
Qed.

(** C4 -- For every JSON object response whose errorCode is a string other
    than "0", [translate] returns success=false with the message
    "错误码 {code}: {phrase}", the phrase being the table's entry for the
    code and the generic "未知错误" for a code the table lacks; the lookup
    of "9999" yields that generic phrase and raises nothing. *)
Theorem C4_error_response
    (self : YoudaoTranslator.t) (text from_lang to_lang : pystr)
    (w : Net.world) (sign : pystr) (resp : response)
    (body : list (pystr * pyval)) (code : pystr) :
  blank text = false ->
  YoudaoTranslator._generate_sign self text (next_salt w) (next_time w)
    = Return sign ->
  http w (translate_request self text from_lang to_lang w sign)
    = Return resp ->
  resp_json resp = Return (PyDict body) ->
  lookup (u "errorCode") body = Some (PyStr code) ->
  code <> u "0" ->
  YoudaoTranslator.translate self text from_lang to_lang w
  = (Return (translate_failure
               (u "错误码 " ++ code ++ u ": "
                ++ match assoc code YoudaoTranslator.error_messages with
                   | Some phrase => phrase
                   | None => u "未知错误"
                   end)
               text),
     after_post w (translate_request self text from_lang to_lang w sign))
  /\ YoudaoTranslator._get_error_message self (SStr (u "9999")) = u "未知错误".
Proof.
  intros Hblank Hsign Hhttp Hjson Hcode Hne.
  split; [|vm_compute; reflexivity].
  client_start Hblank Hsign.
  rewrite Hhttp, Hjson. cbn. rewrite Hcode. cbn.
  rewrite (str_eqb_neq code (u "0") Hne). reflexivity.
Qed.

(* ---- OCR ---- *)

Lemma visit_lines (lines : list pyval) (texts : list pystr) :
  Spec.lines_texts lines = Some texts ->
  forall (acc : list pyval) (w : Net.world),
    for_each lines YoudaoOCR.visit_line acc w
    = (Return (acc ++ map PyStr (List.filter Spec.nonempty texts)), w).
Proof.
  revert texts. induction lines as [|line lines IH]; intros texts H acc w.
  - injection H as <-. cbn. now rewrite app_nil_r.
  - cbn [Spec.lines_texts] in H.
    destruct (Spec.line_text line) as [s|] eqn:El; [|discriminate].
    destruct (Spec.lines_texts lines) as [ss|] eqn:Els; [|discriminate].
    injection H as <-.
    cbn [for_each]. unfold bind at 1.
    assert (Hline : YoudaoOCR.visit_line line acc w
                    = (Return (acc ++ map PyStr (List.filter Spec.nonempty [s])), w)).
    { unfold Spec.line_text in El. destruct line; try discriminate.
      unfold YoudaoOCR.visit_line, bind, lift, get.
      destruct (lookup (u "text") entries) as [[]|]; try discriminate;
        injection El as <-.
      - cbn. unfold Spec.nonempty.
        destruct (negb (Nat.eqb (List.length s0) 0)); cbn;
          [reflexivity | now rewrite app_nil_r].
      - cbn. now rewrite app_nil_r. }
    rewrite Hline, (IH ss eq_refl).
    cbn [List.filter]. destruct (Spec.nonempty s); cbn [map app];
      now rewrite <- app_assoc.
Qed.

Lemma visit_regions (regions : list pyval) (texts : list (list pystr)) :
  Spec.regions_texts regions = Some texts ->
  forall (acc : list pyval) (w : Net.world),
    for_each regions YoudaoOCR.visit_region acc w
    = (Return (acc ++ map PyStr (List.filter Spec.nonempty (concat texts))), w).
Proof.
  revert texts. induction regions as [|region regions IH]; intros texts H acc w.
  - injection H as <-. cbn. now rewrite app_nil_r.
  - cbn [Spec.regions_texts] in H.
    destruct (Spec.region_texts region) as [ls|] eqn:Er; [|discriminate].
    destruct (Spec.regions_texts regions) as [lss|] eqn:Ers; [|discriminate].
    injection H as <-.
    cbn [for_each]. unfold bind at 1.
    assert (Hregion : YoudaoOCR.visit_region region acc w
                      = (Return (acc ++ map PyStr (List.filter Spec.nonempty ls)), w)).
    { unfold Spec.region_texts in Er. destruct region; try discriminate.
      unfold YoudaoOCR.visit_region, bind, lift, get.
      destruct (lookup (u "lines") entries) as [[]|]; try discriminate.
      - cbn [iterate]. now apply visit_lines.
      - injection Er as <-. cbn. now rewrite app_nil_r. }
    rewrite Hregion, (IH lss eq_refl).
    cbn [concat]. now rewrite List.filter_app, map_app, app_assoc.
Qed.

(** C7 -- For every OCR response with errorCode "0" whose result is a list
    of regions, each with a list of lines, each line with a text,
    [recognize] returns success=true, the flattened text (every non-empty
    line text, in region order then line order, joined by newline) and the
    regions as they were returned. *)
Theorem C7_ocr_flattening
    (self : YoudaoOCR.t) (image_data : list byte) (lang : pystr)
    (w : Net.world) (sign : pystr) (resp : response)
    (body result : list (pystr * pyval)) (regions : list pyval)
    (texts : list (list pystr)) :
  YoudaoOCR._generate_sign self
      (Base64.decode_utf8 (Base64.b64encode image_data))
      (next_salt w) (next_time w) = Return sign ->
  http w (recognize_request self image_data lang w sign) = Return resp ->
  resp_json resp = Return (PyDict body) ->
  lookup (u "errorCode") body = Some (PyStr (u "0")) ->
  field body (u "Result") (PyDict []) = PyDict result ->
  field result (u "regions") (PyList []) = PyList regions ->
  Spec.regions_texts regions = Some texts ->
  YoudaoOCR.recognize self image_data lang w
  = (Return (PyDict [(u "success", PyBool true);
                     (u "text", PyStr (Spec.flatten texts));
                     (u "error", PyStr (u ""));
                     (u "regions", PyList regions)]),
     after_post w (recognize_request self image_data lang w sign)).
Proof.
  intros Hsign Hhttp Hjson Hcode Hres Hreg Htexts.
  client_start Hsign Hsign.
  rewrite Hhttp, Hjson. cbn. rewrite Hcode. cbn.
  rewrite str_eqb_refl.
  unfold field in Hres, Hreg. rewrite Hres. cbn. rewrite Hreg. cbn.
  rewrite (visit_regions regions texts Htexts). cbn [app].
  rewrite all_str_map. reflexivity.
Qed.

(* ---- failure modes of translate ---- *)

Section TranslateFailures.
Variables (self : YoudaoTranslator.t) (text from_lang to_lang : pystr).
Variables (w : Net.world) (sign : pystr).
Hypothesis Hblank : blank text = false.
Hypothesis Hsign :
  YoudaoTranslator._generate_sign self text (next_salt w) (next_time w)
  = Return sign.

(** A timeout of the request. *)
Lemma translate_timeout (e : exn) :
  http w (translate_request self text from_lang to_lang w sign) = Raise e ->
  isinstance e Timeout = true ->
  YoudaoTranslator.translate self text from_lang to_lang w
  = (Return (translate_failure (u "请求超时，请检查网络连接") text),
     after_post w
       (translate_request self text from_lang to_lang w sign)).
Proof.
  intros Hhttp Hto. client_start Hblank Hsign.
  rewrite Hhttp. cbn. rewrite Hto. reflexivity.
Qed.

(** Any other [RequestException] of the request. *)
Lemma translate_transport_failure (e : exn) :
  http w (translate_request self text from_lang to_lang w sign) = Raise e ->
  isinstance e Timeout = false ->
  isinstance e RequestException = true ->
  YoudaoTranslator.translate self text from_lang to_lang w
  = (Return (translate_failure (u "网络请求失败: " ++ exn_str e) text),
     after_post w
       (translate_request self text from_lang to_lang w sign)).
Proof.
  intros Hhttp Hto Hre. client_start Hblank Hsign.
  rewrite Hhttp. cbn. rewrite Hto, Hre. reflexivity.
Qed.

(** A body that is not JSON, with requests 2.27 or later: the exception of
    [response.json()] is a [RequestException], so the second clause takes
    it and the third is never reached. *)
Lemma translate_not_json (resp : response) (msg : pystr) :
  http w (translate_request self text from_lang to_lang w sign) = Return resp ->
  resp_json resp = Raise (invalid_json msg) ->
  YoudaoTranslator.translate self text from_lang to_lang w
  = (Return (translate_failure (u "网络请求失败: " ++ msg) text),
     after_post w
       (translate_request self text from_lang to_lang w sign)).
Proof.
  intros Hhttp Hjson. client_start Hblank Hsign.
  rewrite Hhttp, Hjson. reflexivity.
Qed.

(** The same body where [response.json()] raises the plain
    [json.JSONDecodeError] (requests before 2.27). *)
Lemma translate_not_json_legacy (resp : response) (msg : pystr) :
  http w (translate_request self text from_lang to_lang w sign) = Return resp ->
  resp_json resp = Raise (invalid_json_legacy msg) ->
  YoudaoTranslator.translate self text from_lang to_lang w
  = (Return (translate_failure (u "服务器返回数据格式错误") text),
     after_post w
       (translate_request self text from_lang to_lang w sign)).
Proof.
  intros Hhttp Hjson. client_start Hblank Hsign.
  rewrite Hhttp, Hjson. reflexivity.
Qed.

(** A body that is JSON but not an object: [result.get] raises
    [AttributeError], which no clause catches. *)
Lemma translate_not_an_object (resp : response) (v : pyval) :
  http w (translate_request self text from_lang to_lang w sign) = Return resp ->
  resp_json resp = Return v ->
  (forall d, v <> PyDict d) ->
  exists e,
    YoudaoTranslator.translate self text from_lang to_lang w
    = (Raise e, after_post w
       (translate_request self text from_lang to_lang w sign))
    /\ exn_class e = AttributeError.
Proof.
  intros Hhttp Hjson Hv. client_start Hblank Hsign.
  rewrite Hhttp, Hjson.
  destruct v; try (eexists; split; reflexivity).
  now destruct (Hv entries).
Qed.

End TranslateFailures.

(** C5 (the code at the failing inputs) -- With a reply whose body is not
    JSON, [translate] reports the transport-failure message "网络请求失败:
    ..." and not the malformed-data message; with a reply whose body is the
    JSON array [[]], it raises [AttributeError] to its caller. *)
Theorem C5_failing_input :
  fst (YoudaoTranslator.translate demo_translator (u "hello") (u "auto") (u "en")
         (fixed_world not_json_reply))
  = Return (translate_failure
              (u "网络请求失败: Expecting value: line 1 column 1 (char 0)")
              (u "hello"))
  /\ fst (YoudaoTranslator.translate demo_translator (u "hello") (u "auto") (u "en")
            (fixed_world (json_reply (PyList []))))
     = Raise (error AttributeError (u "'list' object has no attribute 'get'")).
Proof. split; vm_compute; reflexivity. Qed.

(* ---- base64 text is ASCII ---- *)

Lemma nth_bound (l : list N) (d bound : N) (n : nat) :
  Forall (fun x => x < bound) l -> d < bound -> nth n l d < bound.
Proof.
  intros Hl Hd. revert n. induction Hl as [|x l Hx _ IH]; intros [|n]; cbn; auto.
Qed.

Lemma sextet_ascii (i : N) : Byte.to_N (Base64.sextet i) < 128.
Proof.
  unfold Base64.sextet.
  assert (H : nth (N.to_nat i) Base64.alphabet Base64.pad_char < 128).
  { apply nth_bound; [|reflexivity].
    unfold Base64.alphabet. cbn. repeat constructor. }
  rewrite to_N_byte_of_N by lia. exact H.
Qed.

Lemma b64encode_N_ascii (bs : list N) :
  Forall (fun b => Byte.to_N b < 128) (Base64.b64encode_N bs).
Proof.
  assert (H : forall n (l : list N), (List.length l <= n)%nat ->
              Forall (fun b => Byte.to_N b < 128) (Base64.b64encode_N l)).
  { induction n as [|n IH]; intros l Hl.
    - destruct l; [constructor | cbn in Hl; lia].
    - destruct l as [|b0 [|b1 [|b2 r]]]; cbn [Base64.b64encode_N].
      + constructor.
      + repeat constructor; try apply sextet_ascii.
      + repeat constructor; try apply sextet_ascii.
      + repeat (constructor; [apply sextet_ascii|]).
        apply IH. cbn in Hl. lia. }
  exact (H (List.length bs) bs (Nat.le_refl _)).
Qed.

Lemma utf8_decode_ascii (bs : list N) :
  Forall (fun b => b < 128) bs -> utf8_decode bs = bs.
Proof.
  induction 1 as [|b bs Hb _ IH]; [reflexivity|].
  cbn [utf8_decode]. destruct (N.ltb_spec b 0x80); [|lia]. now rewrite IH.
Qed.

Lemma ascii_encodable (s : pystr) :
  Forall (fun c => c < 128) s -> encodable s = true.
Proof.
  induction 1 as [|c s Hc _ IH]; [reflexivity|].
  change (encodable (c :: s)) with (is_scalar c && encodable s).
  rewrite IH, andb_true_r. unfold is_scalar, is_surrogate.
  destruct (N.leb_spec c 0x10FFFF); [|lia].
  destruct (N.leb_spec 0xD800 c); [lia|]. reflexivity.
Qed.

(** The text [recognize] signs and sends is pure ASCII, whatever the
    image bytes are. *)
Lemma b64_text_encodable (data : list byte) :
  encodable (Base64.decode_utf8 (Base64.b64encode data)) = true.
Proof.
  unfold Base64.decode_utf8, Base64.b64encode.
  pose proof (b64encode_N_ascii (map Byte.to_N data)) as H.
  assert (H' : Forall (fun c => c < 128)
                 (map Byte.to_N (Base64.b64encode_N (map Byte.to_N data)))).
  { now apply Forall_map. }
  rewrite utf8_decode_ascii by assumption. now apply ascii_encodable.
Qed.

(* ---- recognize always sends its request ---- *)

Lemma visit_line_world (line : pyval) (acc : list pyval) (w : Net.world) :
  snd (YoudaoOCR.visit_line line acc w) = w.
Proof.
  unfold YoudaoOCR.visit_line, bind, lift.
  destruct (get line (u "text") (PyStr (u ""))) as [v| |]; cbn; try reflexivity.
  destruct (truthy v); reflexivity.
Qed.

Lemma for_each_world {A B} (body : A -> B -> M (W:=Net.world) B) :
  (forall x acc w, snd (body x acc w) = w) ->
  forall xs acc w, snd (for_each xs body acc w) = w.
Proof.
  intros Hbody. induction xs as [|x xs IH]; intros acc w; [reflexivity|].
  cbn [for_each]. unfold bind. specialize (Hbody x acc w).
  destruct (body x acc w) as [[b| |] w']; cbn in Hbody; subst w';
    [apply IH | reflexivity | reflexivity].
Qed.

Lemma visit_region_world (region : pyval) (acc : list pyval) (w : Net.world) :
  snd (YoudaoOCR.visit_region region acc w) = w.
Proof.
  unfold YoudaoOCR.visit_region, bind, lift.
  destruct (get region (u "lines") (PyList [])) as [v| |]; cbn; try reflexivity.
  destruct (iterate v) as [lines| |]; cbn; try reflexivity.
  apply for_each_world. apply visit_line_world.
Qed.

(** An exception met inside the [try]: whichever clause takes it, or none,
    the world is left as it is. *)
Ltac caught :=
  cbn;
  repeat match goal with
         | |- context [isinstance ?e ?c] => destruct (isinstance e c)
         end;
  reflexivity.

(** C10 -- [recognize] validates nothing locally: for every byte string,
    the empty one included, it signs the base64 text with a fresh nonce and
    timestamp and sends its request; whatever the remote end then does, the
    world after the call is the world after that one request. *)
Theorem C10_recognize_always_posts
    (self : YoudaoOCR.t) (image_data : list byte) (lang : pystr)
    (w : Net.world) :
  encodable (YoudaoOCR.app_key self) = true ->
  encodable (YoudaoOCR.app_secret self) = true ->
  encodable (next_salt w) = true ->
  exists sign,
    YoudaoOCR._generate_sign self
        (Base64.decode_utf8 (Base64.b64encode image_data))
        (next_salt w) (next_time w) = Return sign
    /\ snd (YoudaoOCR.recognize self image_data lang w)
       = after_post w (recognize_request self image_data lang w sign)
    /\ posted (snd (YoudaoOCR.recognize self image_data lang w))
       = posted w ++ [recognize_request self image_data lang w sign].
Proof.
  intros Hkey Hsecret Hsalt.
  assert (Hex : exists data,
             Spec.signed_bytes (YoudaoOCR.app_key self)
               (Base64.decode_utf8 (Base64.b64encode image_data))
               (next_salt w) (next_time w) (YoudaoOCR.app_secret self)
             = Some data).
  { apply signed_bytes_total; try assumption;
      [apply b64_text_encodable | apply str_of_int_encodable]. }
  destruct Hex as [data Hdata].
  exists (SHA256.hexdigest data).
  assert (Hsign : YoudaoOCR._generate_sign self
                    (Base64.decode_utf8 (Base64.b64encode image_data))
                    (next_salt w) (next_time w)
                  = Return (SHA256.hexdigest data)).
  { now rewrite ocr_sign_eq, Hdata. }
  split; [exact Hsign|].
  assert (Hworld : snd (YoudaoOCR.recognize self image_data lang w)
       = after_post w (recognize_request self image_data lang w
                         (SHA256.hexdigest data))).
  { client_start Hsign Hsign.
    match goal with |- context [http w ?r] => destruct (http w r) as [resp|e|] end;
      cbn; [| caught | reflexivity ].
    destruct (resp_json resp) as [v|e|];
      cbn; [| caught | reflexivity ].
    destruct (get v (u "errorCode") (PyStr (u ""))) as [code|e|];
      cbn; [| caught | reflexivity ].
    destruct (eq_str code (u "0")).
    - destruct (get v (u "Result") (PyDict [])) as [res|e|];
        cbn; [| caught | reflexivity ].
      destruct (get res (u "regions") (PyList [])) as [regs|e|];
        cbn; [| caught | reflexivity ].
      destruct (iterate regs) as [items|e|];
        cbn; [| caught | reflexivity ].
      match goal with |- context [for_each items ?f ?a ?w0] =>
        pose proof (for_each_world f visit_region_world items a w0) as Hw;
        destruct (for_each items f a w0) as [[lines|e|] w1]
      end; cbn in Hw; subst; cbn;
        [| caught | reflexivity ].
      destruct (all_str lines); caught.
    - destruct (hash_key code) as [key|e|];
        cbn; [reflexivity | caught | reflexivity ]. }
  split; [exact Hworld|]. rewrite Hworld. reflexivity.
Qed.

(* ================================================================== *)
(** * The theorems at concrete requests *)
(* ================================================================== *)

Lemma C3_success_response_witness :
  YoudaoTranslator.translate demo_translator (u "hello") (u "auto") (u "zh-CHS")
    (fixed_world (json_reply (PyDict nihao_body)))
  = (Return (PyDict [(u "success", PyBool true);
                     (u "translation", PyStr (join newline [u "你好"]));
                     (u "error", PyStr (u ""));
                     (u "query", field nihao_body (u "query") (PyStr (u "hello")));
                     (u "speakUrl", field nihao_body (u "speakUrl") (PyStr (u "")));
                     (u "tSpeakUrl", field nihao_body (u "tSpeakUrl") (PyStr (u "")))]),
     after_post (fixed_world (json_reply (PyDict nihao_body)))
       (translate_request demo_translator (u "hello") (u "auto") (u "zh-CHS")
          (fixed_world (json_reply (PyDict nihao_body))) hello_sign)).
Proof.
  apply (C3_success_response demo_translator (u "hello") (u "auto") (u "zh-CHS")
           (fixed_world (json_reply (PyDict nihao_body))) hello_sign
           (mkResponse (Return (PyDict nihao_body))) nihao_body [u "你好"]);
    vm_compute; reflexivity.
Defined.

(** The example of the specification, in full. *)
Example translate_nihao :
  fst (YoudaoTranslator.translate demo_translator (u "hello") (u "auto") (u "zh-CHS")
         (fixed_world (json_reply (PyDict nihao_body))))
  = Return (PyDict [(u "success", PyBool true);
                    (u "translation", PyStr (u "你好"));
                    (u "error", PyStr (u ""));
                    (u "query", PyStr (u "hello"));
                    (u "speakUrl", PyStr (u ""));
                    (u "tSpeakUrl", PyStr (u ""))]).
Proof. vm_compute. reflexivity. Qed.

Lemma C4_error_response_witness :
  YoudaoTranslator.translate demo_translator (u "hello") (u "auto") (u "zh-CHS")
    (fixed_world (json_reply (PyDict rate_limited_body)))
  = (Return (translate_failure
               (u "错误码 " ++ u "411" ++ u ": "
                ++ match assoc (u "411") YoudaoTranslator.error_messages with
                   | Some phrase => phrase
                   | None => u "未知错误"
                   end)
               (u "hello")),
     after_post (fixed_world (json_reply (PyDict rate_limited_body)))
       (translate_request demo_translator (u "hello") (u "auto") (u "zh-CHS")
          (fixed_world (json_reply (PyDict rate_limited_body))) hello_sign))
  /\ YoudaoTranslator._get_error_message demo_translator (SStr (u "9999"))
     = u "未知错误".
Proof.
  apply (C4_error_response demo_translator (u "hello") (u "auto") (u "zh-CHS")
           (fixed_world (json_reply (PyDict rate_limited_body))) hello_sign
           (mkResponse (Return (PyDict rate_limited_body))) rate_limited_body
           (u "411"));
    vm_compute; solve [reflexivity | discriminate].
Defined.

(** The rate-limit example and an unknown code, in full. *)
Example translate_rate_limited :
  fst (YoudaoTranslator.translate demo_translator (u "hello") (u "auto") (u "zh-CHS")
         (fixed_world (json_reply (PyDict rate_limited_body))))
  = Return (translate_failure (u "错误码 411: 访问频率受限") (u "hello"))
  /\ fst (YoudaoTranslator.translate demo_translator (u "hello") (u "auto")
            (u "zh-CHS")
            (fixed_world (json_reply (PyDict [(u "errorCode", PyStr (u "9999"))]))))
     = Return (translate_failure (u "错误码 9999: 未知错误") (u "hello")).
Proof. split; vm_compute; reflexivity. Qed.

Lemma C7_ocr_flattening_witness :
  YoudaoOCR.recognize demo_ocr sample_image (u "auto")
    (fixed_world (json_reply (PyDict ocr_body)))
  = (Return (PyDict [(u "success", PyBool true);
                     (u "text", PyStr (Spec.flatten [[u "A"; u "B"]; [u "C"]]));
                     (u "error", PyStr (u ""));
                     (u "regions", PyList two_regions)]),
     after_post (fixed_world (json_reply (PyDict ocr_body)))
       (recognize_request demo_ocr sample_image (u "auto")
          (fixed_world (json_reply (PyDict ocr_body))) sample_image_sign)).
Proof.
  apply (C7_ocr_flattening demo_ocr sample_image (u "auto")
           (fixed_world (json_reply (PyDict ocr_body))) sample_image_sign
           (mkResponse (Return (PyDict ocr_body))) ocr_body
           [(u "orientation", PyStr (u "UP")); (u "regions", PyList two_regions)]
           two_regions [[u "A"; u "B"]; [u "C"]]);
    vm_compute; reflexivity.
Defined.

(** The example of the specification: ["A","B"] and ["C"] flatten to
    "A\nB\nC". *)
Example recognize_two_regions :
  Spec.flatten [[u "A"; u "B"]; [u "C"]] = [65; 10; 66; 10; 67]
  /\ fst (YoudaoOCR.recognize demo_ocr sample_image (u "auto")
            (fixed_world (json_reply (PyDict ocr_body))))
     = Return (PyDict [(u "success", PyBool true);
                       (u "text", PyStr [65; 10; 66; 10; 67]);
                       (u "error", PyStr (u ""));
                       (u "regions", PyList two_regions)]).
Proof. split; vm_compute; reflexivity. Qed.

Lemma C10_recognize_always_posts_witness :
  exists sign,
    YoudaoOCR._generate_sign demo_ocr
        (Base64.decode_utf8 (Base64.b64encode []))
        (next_salt (fixed_world not_json_reply))
        (next_time (fixed_world not_json_reply)) = Return sign
    /\ snd (YoudaoOCR.recognize demo_ocr [] (u "auto") (fixed_world not_json_reply))
       = after_post (fixed_world not_json_reply)
           (recognize_request demo_ocr [] (u "auto")
              (fixed_world not_json_reply) sign)
    /\ posted (snd (YoudaoOCR.recognize demo_ocr [] (u "auto")
                      (fixed_world not_json_reply)))
       = posted (fixed_world not_json_reply)
         ++ [recognize_request demo_ocr [] (u "auto")
               (fixed_world not_json_reply) sign].
Proof.
  apply (C10_recognize_always_posts demo_ocr [] (u "auto")
           (fixed_world not_json_reply));
    vm_compute; reflexivity.
Defined.

(** The empty image: the request goes out with an empty img field and the
    signature [hashlib] gives for it. *)
Example recognize_empty_image :
  posted (snd (YoudaoOCR.recognize demo_ocr [] (u "auto")
                 (fixed_world (json_reply (PyDict ocr_body)))))
  = [mkRequest YoudaoOCR.OCR_API_URL
       [(u "img", u "");
        (u "langType", u "auto");
        (u "detectType", u "10012");
        (u "imageType", u "1");
        (u "appKey", u "myAppKey");
        (u "salt", u "d3b0c442-98fc-4c14-9afb-f4c8996fb924");
        (u "sign", empty_image_sign);
        (u "signType", u "v3");
        (u "curtime", u "1700000000");
        (u "docType", u "json")]
       30].
Proof. vm_compute. reflexivity. Qed.

Lemma C6_signature_function_witness :
  YoudaoTranslator._generate_sign
    (YoudaoTranslator.mk (u "myAppKey") (u "s3cr3t")) text_a
    (u "salt-1") (u "1700000000")
  = Return (SHA256.hexdigest
              (bytes_or_empty (Spec.signed_bytes (u "myAppKey") text_a
                                 (u "salt-1") (u "1700000000") (u "s3cr3t"))))
  /\ YoudaoTranslator._generate_sign
       (YoudaoTranslator.mk (u "myAppKey") (u "s3cr3t")) text_b
       (u "salt-2") (u "1700000000")
     = Return (SHA256.hexdigest
                 (bytes_or_empty (Spec.signed_bytes (u "myAppKey") text_b
                                    (u "salt-2") (u "1700000000") (u "s3cr3t"))))
  /\ ([u "myAppKey"; Spec.digest_input text_a; u "salt-1"; u "1700000000";
       u "s3cr3t"]
      = [u "myAppKey"; Spec.digest_input text_b; u "salt-2"; u "1700000000";
         u "s3cr3t"] ->
      SHA256.hexdigest
        (bytes_or_empty (Spec.signed_bytes (u "myAppKey") text_a
                           (u "salt-1") (u "1700000000") (u "s3cr3t")))
      = SHA256.hexdigest
          (bytes_or_empty (Spec.signed_bytes (u "myAppKey") text_b
                             (u "salt-2") (u "1700000000") (u "s3cr3t"))))
  /\ (one_differs
        [u "myAppKey"; Spec.digest_input text_a; u "salt-1"; u "1700000000";
         u "s3cr3t"]
        [u "myAppKey"; Spec.digest_input text_b; u "salt-2"; u "1700000000";
         u "s3cr3t"] ->
      bytes_or_empty (Spec.signed_bytes (u "myAppKey") text_a
                        (u "salt-1") (u "1700000000") (u "s3cr3t"))
      <> bytes_or_empty (Spec.signed_bytes (u "myAppKey") text_b
                           (u "salt-2") (u "1700000000") (u "s3cr3t"))).
Proof.
  apply (C6_signature_function (u "myAppKey") text_a (u "salt-1")
           (u "1700000000") (u "s3cr3t") (u "myAppKey") text_b (u "salt-2")
           (u "1700000000") (u "s3cr3t"));
    vm_compute; reflexivity.
Defined.

(* ================================================================== *)
(** * The two error tables (C8) *)
(* ================================================================== *)

Lemma assoc_In (table : list (pystr * pystr)) (code phrase : pystr) :
  assoc code table = Some phrase -> In (code, phrase) table.
Proof.
  induction table as [|[k v] table IH]; cbn; [discriminate|].
  destruct (str_eqb code k) eqn:E.
  - intros [= <-]. apply str_eqb_eq in E. subst k. now left.
  - intros H. right. now apply IH.
Qed.

(** C8, as the specification states it, fails: the translation table maps
    "103" (text too long) and the OCR table does not. *)
Lemma C8_counterexample :
  ~ (forall code : pystr,
        mapped YoudaoTranslator.error_messages code = true ->
        mapped YoudaoOCR.error_messages code = true).
Proof.
  intros claim. specialize (claim (u "103") eq_refl). discriminate claim.
Qed.

(** C8 (amended) -- Every code of the translation table other than "103"
    is in the OCR table with the same phrase; the OCR table also maps the
    OCR-specific codes 1001, 1002, 1003, 1004, 1006, 1201 and 1301, which the
    translation table lacks; in either table the lookup of an absent code
    yields the generic phrase "未知错误". *)
Theorem C8_error_tables (code phrase : pystr) :
  assoc code YoudaoTranslator.error_messages = Some phrase ->
  code <> u "103" ->
  assoc code YoudaoOCR.error_messages = Some phrase
  /\ forallb (fun c => mapped YoudaoOCR.error_messages c
                       && negb (mapped YoudaoTranslator.error_messages c))
       ocr_only_codes = true
  /\ (forall (self : YoudaoTranslator.t) (c : pystr),
         mapped YoudaoTranslator.error_messages c = false ->
         YoudaoTranslator._get_error_message self (SStr c) = u "未知错误")
  /\ (forall (self : YoudaoOCR.t) (c : pystr),
         mapped YoudaoOCR.error_messages c = false ->
         YoudaoOCR._get_error_message self (SStr c) = u "未知错误").
Proof.
  intros Hmap Hne. repeat split.
  - apply assoc_In in Hmap. unfold YoudaoTranslator.error_messages in Hmap.
    cbn [In] in Hmap.
    repeat (destruct Hmap as [[= <- <-] | Hmap];
            [first [reflexivity | now destruct Hne] |]).
    destruct Hmap.
  - intros self c Hc. unfold YoudaoTranslator._get_error_message, mapped in *.
    cbn [table_get]. now destruct (assoc c YoudaoTranslator.error_messages).
  - intros self c Hc. unfold YoudaoOCR._get_error_message, mapped in *.
    cbn [table_get]. now destruct (assoc c YoudaoOCR.error_messages).
Qed.

Lemma C8_error_tables_witness :
  assoc (u "411") YoudaoOCR.error_messages = Some (u "访问频率受限")
  /\ forallb (fun c => mapped YoudaoOCR.error_messages c
                       && negb (mapped YoudaoTranslator.error_messages c))
       ocr_only_codes = true
  /\ (forall (self : YoudaoTranslator.t) (c : pystr),
         mapped YoudaoTranslator.error_messages c = false ->
         YoudaoTranslator._get_error_message self (SStr c) = u "未知错误")
  /\ (forall (self : YoudaoOCR.t) (c : pystr),
         mapped YoudaoOCR.error_messages c = false ->
         YoudaoOCR._get_error_message self (SStr c) = u "未知错误").
Proof.
  apply (C8_error_tables (u "411") (u "访问频率受限")).
  - reflexivity.
  - vm_compute. discriminate.
Defined.

(** The code the OCR table lacks gets the generic phrase there. *)
Example ocr_message_103 :
  YoudaoTranslator._get_error_message demo_translator (SStr (u "103"))
    = u "翻译文本过长"
  /\ YoudaoOCR._get_error_message demo_ocr (SStr (u "103")) = u "未知错误".
Proof. split; reflexivity. Qed.

(* ================================================================== *)
(** * The single-instance start-up (C9) *)
(* ================================================================== *)

Lemma bind_return {W A B} (m : M (W:=W) A) (k : A -> M (W:=W) B)
    (w w' : W) (a : A) :
  m w = (Return a, w') -> bind m k w = k a w'.
Proof. intros H. unfold bind. now rewrite H. Qed.

Section StartUp.
Import Main.
Variable app_run : M (W:=Main.world) unit.
Variable setup_autostart : bool -> M (W:=Main.world) bool.
Variable is_autostart_enabled : M (W:=Main.world) bool.

Lemma check_free (w : Main.world) :
  LOCK_FILE ∉ denied w -> LOCK_FILE ∉ locked_elsewhere w ->
  check_single_instance w
  = (Return (Some LOCK_FILE),
     mkWorld (<[LOCK_FILE := []]> (files w)) (denied w) (locked_elsewhere w)
             (locks w ∪ {[LOCK_FILE]}) (stdout w) (apps w)).
Proof.
  intros Hopen Hfree.
  unfold check_single_instance, try_except, bind, open_w, flock, ret.
  rewrite decide_False by assumption. cbn.
  rewrite decide_False by assumption. reflexivity.
Qed.

Lemma check_held (w : Main.world) :
  LOCK_FILE ∉ denied w -> LOCK_FILE ∈ locked_elsewhere w ->
  check_single_instance w
  = (Return None, set_files (<[LOCK_FILE := []]> (files w)) w).
Proof.
  intros Hopen Hheld.
  unfold check_single_instance, try_except, bind, open_w, flock, ret.
  rewrite decide_False by assumption. cbn.
  rewrite decide_True by assumption. reflexivity.
Qed.

Lemma write_file_ok (path : string) (text : pystr) (w : Main.world) :
  path ∉ denied w ->
  write_file path text w = (Return tt, set_files (<[path := text]> (files w)) w).
Proof.
  intros Hopen. unfold write_file, bind, open_w, try_finally, write, close, ret.
  rewrite decide_False by assumption. cbn.
  rewrite lookup_insert_eq, insert_insert_eq. reflexivity.
Qed.

Lemma send_show_ok (w : Main.world) :
  SHOW_SIGNAL_FILE ∉ denied w ->
  send_show_signal w
  = (Return tt, set_files (<[SHOW_SIGNAL_FILE := u "show"]> (files w)) w).
Proof.
  intros H. unfold send_show_signal, try_except.
  now rewrite write_file_ok.
Qed.

Lemma send_selection_ok (w : Main.world) :
  SELECTION_TRANSLATE_SIGNAL_FILE ∉ denied w ->
  send_selection_translate_signal w
  = (Return tt,
     set_files (<[SELECTION_TRANSLATE_SIGNAL_FILE := u "translate"]> (files w)) w).
Proof.
  intros H. unfold send_selection_translate_signal, try_except.
  now rewrite write_file_ok.
Qed.

(** Without a flag and with the lock held elsewhere: the show signal is
    written, a line is printed, the process exits with status 0. *)
Lemma script_secondary (w : Main.world) (prog : pystr) :
  LOCK_FILE ∉ denied w -> SHOW_SIGNAL_FILE ∉ denied w ->
  LOCK_FILE ∈ locked_elsewhere w ->
  script app_run setup_autostart is_autostart_enabled [prog] w
  = (Raise (mkExn SystemExit (str_of_int 0) 0),
     mkWorld (<[SHOW_SIGNAL_FILE := u "show"]> (<[LOCK_FILE := []]> (files w)))
             (denied w) (locked_elsewhere w) (locks w)
             (stdout w ++ [u "程序已在运行中，已发送显示窗口信号"]) (apps w)).
Proof.
  intros Hlock Hshow Hheld.
  unfold script. change (len [prog] >? 1)%Z with false. cbv iota.
  erewrite bind_return by reflexivity.
  unfold main. erewrite bind_return by (now apply check_held).
  cbv iota. erewrite bind_return by (now apply send_show_ok).
  reflexivity.
Qed.

(** With the selection-translate flag the lock is not even tried: the
    signal is written, a line is printed, the process exits with status
    0. *)
Lemma script_selection_flag (w : Main.world) (prog : pystr) :
  SELECTION_TRANSLATE_SIGNAL_FILE ∉ denied w ->
  script app_run setup_autostart is_autostart_enabled
    [prog; u "--selection-translate"] w
  = (Raise (mkExn SystemExit (str_of_int 0) 0),
     mkWorld (<[SELECTION_TRANSLATE_SIGNAL_FILE := u "translate"]> (files w))
             (denied w) (locked_elsewhere w) (locks w)
             (stdout w ++ [u "已发送划词翻译信号"]) (apps w)).
Proof.
  intros Hsel. unfold script.
  change (len [prog; u "--selection-translate"] >? 1)%Z with true.
  cbn [nth].
  change (str_eqb (u "--selection-translate") (u "--show")) with false.
  change (str_eqb (u "--selection-translate") (u "--selection-translate"))
    with true.
  cbv iota. unfold bind at 1.
  erewrite bind_return by (now apply send_selection_ok).
  reflexivity.
Qed.

(** C9 -- Provided the lock file and the signal files can be opened for
    writing: when no other process holds the instance lock, the acquisition
    succeeds and the start-up goes on as primary (it builds the application
    and runs it with the lock held); when another process holds it, the
    acquisition returns at once without the lock, the invocation leaves a
    signal file whose content is exactly "show" (exactly "translate" with
    the selection-translate flag), exits with status 0, and creates no
    application. *)
Theorem C9_single_instance (w : Main.world) (prog : pystr) :
  LOCK_FILE ∉ denied w ->
  SHOW_SIGNAL_FILE ∉ denied w ->
  SELECTION_TRANSLATE_SIGNAL_FILE ∉ denied w ->
  (LOCK_FILE ∉ locked_elsewhere w ->
     fst (check_single_instance w) = Return (Some LOCK_FILE)
     /\ LOCK_FILE ∈ locks (snd (check_single_instance w))
     /\ script app_run setup_autostart is_autostart_enabled [prog] w
        = try_finally app_run (release LOCK_FILE) (primary_world w))
  /\ (LOCK_FILE ∈ locked_elsewhere w ->
      fst (check_single_instance w) = Return None
      /\ locks (snd (check_single_instance w)) = locks w
      /\ (let finish :=
            script app_run setup_autostart is_autostart_enabled [prog] w in
          exit_status (fst finish) = Some 0%Z
          /\ files (snd finish) !! SHOW_SIGNAL_FILE = Some (u "show")
          /\ apps (snd finish) = apps w
          /\ locks (snd finish) = locks w)
      /\ (let finish :=
            script app_run setup_autostart is_autostart_enabled
              [prog; u "--selection-translate"] w in
          exit_status (fst finish) = Some 0%Z
          /\ files (snd finish) !! SELECTION_TRANSLATE_SIGNAL_FILE
             = Some (u "translate")
          /\ apps (snd finish) = apps w
          /\ locks (snd finish) = locks w)).
Proof.
  intros Hlock Hshow Hsel. split.
  - intros Hfree. rewrite check_free by assumption. cbn [fst snd locks].
    split; [reflexivity|]. split; [set_solver|].
    unfold script. change (len [prog] >? 1)%Z with false. cbv iota.
    erewrite bind_return by reflexivity.
    unfold main. erewrite bind_return by (now apply check_free).
    reflexivity.
  - intros Hheld. rewrite check_held by assumption.
    rewrite script_secondary, script_selection_flag by assumption.
    cbn [fst snd locks files apps set_files exit_status exn_class exn_code
         class_eqb].
    rewrite !lookup_insert_eq. repeat split; reflexivity.
Qed.

End StartUp.

Lemma C9_single_instance_witness :
  (fst (Main.check_single_instance first_start) = Return (Some Main.LOCK_FILE)
   /\ Main.LOCK_FILE ∈ Main.locks (snd (Main.check_single_instance first_start))
   /\ Main.script idle_app no_autostart autostart_off [u "main.py"] first_start
      = try_finally idle_app (Main.release Main.LOCK_FILE)
          (Main.primary_world first_start))
  /\ (fst (Main.check_single_instance second_start) = Return None
      /\ Main.locks (snd (Main.check_single_instance second_start))
         = Main.locks second_start
      /\ (let finish :=
            Main.script idle_app no_autostart autostart_off [u "main.py"]
              second_start in
          Main.exit_status (fst finish) = Some 0%Z
          /\ Main.files (snd finish) !! Main.SHOW_SIGNAL_FILE = Some (u "show")
          /\ Main.apps (snd finish) = Main.apps second_start
          /\ Main.locks (snd finish) = Main.locks second_start)
      /\ (let finish :=
            Main.script idle_app no_autostart autostart_off
              [u "main.py"; u "--selection-translate"] second_start in
          Main.exit_status (fst finish) = Some 0%Z
          /\ Main.files (snd finish) !! Main.SELECTION_TRANSLATE_SIGNAL_FILE
             = Some (u "translate")
          /\ Main.apps (snd finish) = Main.apps second_start
          /\ Main.locks (snd finish) = Main.locks second_start)).
Proof.
  split.
  - apply (C9_single_instance idle_app no_autostart autostart_off first_start
             (u "main.py"));
      vm_compute; first [reflexivity | intros H; discriminate H].
  - apply (C9_single_instance idle_app no_autostart autostart_off second_start
             (u "main.py"));
      vm_compute; first [reflexivity | intros H; discriminate H].
Defined.

(** What [LOCK_NB] buys: the same request without it would wait for the
    other process; with it the call comes back at once with
    [BlockingIOError], which [check_single_instance] turns into [None]. *)
Example flock_blocking_and_not :
  fst (Main.flock Main.LOCK_FILE Main.LOCK_EX second_start) = Hang
  /\ fst (Main.flock Main.LOCK_FILE (Z.lor Main.LOCK_EX Main.LOCK_NB) second_start)
     = Raise (error BlockingIOError
                (u "[Errno 11] Resource temporarily unavailable"))
  /\ fst (Main.check_single_instance second_start) = Return None.
Proof. repeat split; vm_compute; reflexivity. Qed.

(** A signal file that cannot be written is passed over in silence: the
    second invocation still exits with status 0. *)
Example signal_write_failure_is_swallowed :
  let w := Main.mkWorld {[Main.LOCK_FILE := []]} {[Main.SHOW_SIGNAL_FILE]}
             {[Main.LOCK_FILE]} ∅ [] 0 in
  let finish := Main.script idle_app no_autostart autostart_off [u "main.py"] w in
  Main.exit_status (fst finish) = Some 0%Z
  /\ Main.files (snd finish) !! Main.SHOW_SIGNAL_FILE = None.
Proof. split; vm_compute; reflexivity. Qed.
